(** * splunk-go-sdk: a shallow embedding of the Splunk client

    The development follows the Go sources of the repository:

    - [src/internal/splunk/splunk.go]: [Client], [Event], [NewClient],
      [Search] (one argument, built by [prepareHttpRequest]),
      [SendEvents], [setAuthHeader], [parseSplunkSearchResults];
    - [src/unnamed/part_000]: the same package with the variadic
      [Search(query, options...)];
    - [src/main.go]: the root command's own copy of [NewClient].

    Go strings are byte strings and are modelled by [string]; an [error]
    is modelled by the text its [Error()] method returns; a function
    returning [(T, error)] returns a [result T]; a function returning
    [error] returns an [option error] ([None] is [nil]).

    The Go standard library that performs I/O or that is too large to
    transcribe ([http.Client.Do], [json.Marshal], [json.Decoder.Decode],
    [url.Parse] inside [http.NewRequest]) is a parameter of the model:
    every theorem holds for all of its possible behaviours. A response
    body is the text read from it; closing it ([defer resp.Body.Close()])
    has no counterpart. *)

From Stdlib Require Import ZArith NArith Ascii String List Bool Lia.
From stdpp Require Import base option gmap strings list.

Set Warnings "-register-all".
Local Open Scope Z_scope.

(** ** Results and errors *)

Definition error := string.

Inductive result (A : Type) : Type :=
  | Ok (a : A)
  | Err (e : error).
Arguments Ok {A} a.
Arguments Err {A} e.

(** ** Package [strings] *)

(** [strings.Cut(s, sep)] for a non-empty [sep]: the text before and
    after the first occurrence of [sep], if there is one. *)
Fixpoint strings_Cut (s sep : string) : option (string * string) :=
  if String.prefix sep s
  then Some (EmptyString, String.substring (String.length sep)
                            (String.length s - String.length sep)%nat s)
  else match s with
       | EmptyString => None
       | String a s' =>
           match strings_Cut s' sep with
           | Some (before, after) => Some (String a before, after)
           | None => None
           end
       end.

(** [strings.SplitN(s, sep, n)] for a non-empty [sep] and [n >= 0]: at
    most [n] substrings, the last one being the unsplit remainder. *)
Fixpoint strings_SplitN (s sep : string) (n : nat) : list string :=
  match n with
  | O => []
  | S O => [s]
  | S n' =>
      match strings_Cut s sep with
      | None => [s]
      | Some (before, after) => before :: strings_SplitN after sep n'
      end
  end.

(** [strings.Contains(s, substr)]. *)
Definition strings_Contains (s substr : string) : bool :=
  match strings_Cut s substr with
  | Some _ => true
  | None => substr =? EmptyString
  end%string.

(** Membership of a byte in a cutset of ASCII characters. *)
Fixpoint in_cutset (a : ascii) (cutset : string) : bool :=
  match cutset with
  | EmptyString => false
  | String b rest => if Ascii.eqb a b then true else in_cutset a rest
  end.

(** [strings.TrimRight(s, cutset)] for an ASCII [cutset]: [s] without
    its trailing bytes that belong to [cutset]. *)
Fixpoint strings_TrimRight (s cutset : string) : string :=
  match s with
  | EmptyString => EmptyString
  | String a s' =>
      match strings_TrimRight s' cutset with
      | EmptyString =>
          if in_cutset a cutset then EmptyString else String a EmptyString
      | t => String a t
      end
  end.

(** [strings.Join(elems, sep)]. *)
Definition strings_Join (elems : list string) (sep : string) : string :=
  String.concat sep elems.

(** ** Package [encoding/base64]: [StdEncoding.EncodeToString] (RFC 4648,
    with padding). *)

Definition base64_alphabet : string :=
  "ABCDEFGHIJKLMNOPQRSTUVWXYZabcdefghijklmnopqrstuvwxyz0123456789+/".

Definition base64_digit (n : N) : ascii :=
  match String.get (N.to_nat n) base64_alphabet with
  | Some a => a
  | None => "="%char
  end.

Fixpoint base64_encode_bytes (l : list N) : string :=
  match l with
  | [] => EmptyString
  | [a] =>
      String (base64_digit (N.shiftr a 2))
        (String (base64_digit (N.shiftl (N.land a 3) 4)) "==")
  | [a; b] =>
      String (base64_digit (N.shiftr a 2))
        (String (base64_digit (N.lor (N.shiftl (N.land a 3) 4) (N.shiftr b 4)))
           (String (base64_digit (N.shiftl (N.land b 15) 2)) "="))
  | a :: b :: c :: rest =>
      String (base64_digit (N.shiftr a 2))
        (String (base64_digit (N.lor (N.shiftl (N.land a 3) 4) (N.shiftr b 4)))
           (String (base64_digit (N.lor (N.shiftl (N.land b 15) 2) (N.shiftr c 6)))
              (String (base64_digit (N.land c 63))
                 (base64_encode_bytes rest))))
  end.

Definition base64_EncodeToString (s : string) : string :=
  base64_encode_bytes (map N_of_ascii (list_ascii_of_string s)).

(** ** Dynamic values: Go's [any]

    The values an [Event] payload may hold. [any_chan] stands for the
    values [json.Marshal] rejects (channels, functions, ...). *)

Inductive any : Type :=
  | any_nil
  | any_bool (b : bool)
  | any_int64 (z : Z)
  | any_string (s : string)
  | any_slice (l : list any)
  | any_map (m : gmap string any)
  | any_chan.

(** ** Package [net/http]: requests and responses *)

(** [http.Header] restricted to canonical keys; [Set] replaces whatever
    values the key had by the single new one, [Get] returns the first
    value or the empty string. *)
Abbreviation http_Header := (gmap string (list string)).

Definition Header_Set (h : http_Header) (key value : string) : http_Header :=
  <[key := [value]]> h.

Definition Header_Get (h : http_Header) (key : string) : string :=
  match h !! key with
  | Some (v :: _) => v
  | _ => EmptyString
  end.

Record http_Request := mkRequest {
  Method : string;
  URL : string;
  Header : http_Header;
  Body : string
}.

Record http_Response := mkResponse {
  StatusCode : Z;
  Status : string;
  RespBody : string
}.

Definition http_StatusOK : Z := 200.

Definition req_Header_Set (req : http_Request) (key value : string)
  : http_Request :=
  {| Method := Method req; URL := URL req;
     Header := Header_Set (Header req) key value; Body := Body req |}.

(** [Request.SetBasicAuth] of net/http. *)
Definition SetBasicAuth (req : http_Request) (username password : string)
  : http_Request :=
  req_Header_Set req "Authorization"
    ("Basic " +:+ base64_EncodeToString (username +:+ ":" +:+ password)).

(** ASCII lower-casing, for the case-insensitive scheme comparison. *)
Definition ascii_lower (a : ascii) : ascii :=
  let n := N_of_ascii a in
  if ((65 <=? n) && (n <=? 90))%N then ascii_of_N (n + 32) else a.

Fixpoint string_lower (s : string) : string :=
  match s with
  | EmptyString => EmptyString
  | String a s' => String (ascii_lower a) (string_lower s')
  end.

(** The scheme test of [Request.BasicAuth] of net/http: the Authorization
    header starts with "Basic " up to ASCII case. When this test fails
    [BasicAuth] reports [ok = false]. *)
Definition hasBasicAuthScheme (req : http_Request) : bool :=
  String.prefix "basic " (string_lower (Header_Get (Header req) "Authorization")).

(** ** Package [time] *)

Definition time_Second : Z := 1000000000.

(** ** The Go runtime the client runs against

    [World] is the state of everything outside the process (the network
    and the Splunk server); an HTTP exchange reads and updates it.
    [http_Client] stands for the values of type [*http.Client];
    [http_Client_new d] is [&http.Client{Timeout: d}] and
    [http_Client_Do] is its method [Do]. [json_Marshal] and [json_Decode]
    are [json.Marshal] and [json.NewDecoder(r).Decode] into a
    [map[string]any]; [url_Parse u] is the error, if any, that makes
    [http.NewRequest] reject the URL [u]. *)

Class Runtime := {
  World : Type;
  http_Client : Type;
  http_Client_new : Z -> http_Client;
  http_Client_Do :
    http_Client -> http_Request -> World -> result http_Response * World;
  json_Marshal : any -> result string;
  json_Decode : string -> result (gmap string any);
  url_Parse : string -> option error
}.

(** The calls into the standard library that a run performs, in order. *)
Inductive Effect : Type :=
  | EMarshal (v : any)
  | EDo (req : http_Request)
  | EDecode (body : string).

(** The requests handed to [http.Client.Do] during a run, in order. *)
Fixpoint requests (t : list Effect) : list http_Request :=
  match t with
  | [] => []
  | EDo req :: t' => req :: requests t'
  | _ :: t' => requests t'
  end.

(** The values handed to [json.Marshal] during a run, in order. *)
Fixpoint marshalled (t : list Effect) : list any :=
  match t with
  | [] => []
  | EMarshal v :: t' => v :: marshalled t'
  | _ :: t' => marshalled t'
  end.

(** The bodies handed to the JSON decoder during a run, in order. *)
Fixpoint decoded (t : list Effect) : list string :=
  match t with
  | [] => []
  | EDecode b :: t' => b :: decoded t'
  | _ :: t' => decoded t'
  end.

(** [Event] of the package; its field [Event] is named [Event_] here. *)
Record Event := mkEvent {
  Time : Z;
  Event_ : gmap string any
}.

Section Model.
Context `{RT : Runtime}.

(** A computation starts in a world and yields its value, the world
    it leaves behind and the effects it performed, in order. *)
Record Run (A : Type) := mkRun {
  value : A;
  final : World;
  log : list Effect
}.
Arguments mkRun {A}.
Arguments value {A}.
Arguments final {A}.
Arguments log {A}.

Definition IO (A : Type) : Type := World -> Run A.

Definition ret {A} (a : A) : IO A := fun w => mkRun a w [].

Definition bind {A B} (m : IO A) (k : A -> IO B) : IO B :=
  fun w =>
    let r1 := m w in
    let r2 := k (value r1) (final r1) in
    mkRun (value r2) (final r2) (log r1 ++ log r2).

Definition io_Marshal (v : any) : IO (result string) :=
  fun w => mkRun (json_Marshal v) w [EMarshal v].

Definition io_Do (c : http_Client) (req : http_Request)
  : IO (result http_Response) :=
  fun w => let (r, w') := http_Client_Do c req w in mkRun r w' [EDo req].

Definition io_Decode (body : string) : IO (result (gmap string any)) :=
  fun w => mkRun (json_Decode body) w [EDecode body].

(** [http.NewRequest(method, url, body)] for a valid method. *)
Definition http_NewRequest (method url body : string) : result http_Request :=
  match url_Parse url with
  | Some e => Err e
  | None => Ok (mkRequest method url ∅ body)
  end.

(** [Client] of the package. *)
Record Client := mkClient {
  BaseURL : string;
  Username : string;
  Password : string;
  Token : string;
  HTTPClient : http_Client
}.

(** [NewClient] of [src/internal/splunk/splunk.go] (and of
    [src/unnamed/part_000], [src/unnamed/part_002]): the composite
    literal sets [BaseURL], [Username], [Token] and [HTTPClient];
    [Password] is left at its zero value. *)
Definition NewClient (baseURL username password token : string)
  : result Client :=
  if (token =? "")%string && ((username =? "")%string || (password =? "")%string)
  then Err "either a token or a username and password must be provided"
  else Ok {| BaseURL := baseURL;
             Username := username;
             Password := "";
             Token := token;
             HTTPClient := http_Client_new (30 * time_Second) |}.

(** [setAuthHeader]: the request with its authentication header, or
    the error (the request is then left as it was). *)
Definition setAuthHeader (c : Client) (req : http_Request)
  : result http_Request :=
  if negb (Token c =? "")%string
  then Ok (req_Header_Set req "Authorization" ("Bearer " +:+ Token c))
  else if negb (Username c =? "")%string && negb (Password c =? "")%string
  then Ok (SetBasicAuth req (Username c) (Password c))
  else Err "no authentication credentials provided".

(** [parseSplunkSearchResults]. *)
Definition parseSplunkSearchResults (body : string)
  : IO (result (gmap string any)) :=
  io_Decode body.

(** The payload [SendEvents] builds for one event. *)
Definition payload (indexName : string) (event : Event) : gmap string any :=
  {[ "index" := any_string indexName;
     "time" := any_int64 (Time event);
     "event" := any_map (Event_ event) ]}.

(** One iteration of the loop of [SendEvents]: [Some err] when the
    iteration returns [err], [None] when it falls through to the next
    event. *)
Definition sendEvent (c : Client) (indexName hecURL : string) (event : Event)
  : IO (option error) :=
  bind (io_Marshal (any_map (payload indexName event))) (fun r =>
  match r with
  | Err err => ret (Some ("failed to marshal event: " +:+ err))
  | Ok body =>
      match http_NewRequest "POST" hecURL body with
      | Err err => ret (Some ("failed to create request: " +:+ err))
      | Ok req =>
          let req := req_Header_Set req "Authorization" ("Splunk " +:+ Token c) in
          let req := req_Header_Set req "Content-Type" "application/json" in
          bind (io_Do (HTTPClient c) req) (fun r =>
          match r with
          | Err err => ret (Some ("failed to send event: " +:+ err))
          | Ok resp =>
              if negb (StatusCode resp =? http_StatusOK)
              then ret (Some ("failed to send event: " +:+ Status resp
                              +:+ " - " +:+ RespBody resp))
              else ret None
          end)
      end
  end).

(** The [for _, event := range events] loop of [SendEvents]. *)
Fixpoint sendEventsLoop (c : Client) (indexName hecURL : string)
  (events : list Event) : IO (option error) :=
  match events with
  | [] => ret None
  | event :: rest =>
      bind (sendEvent c indexName hecURL event) (fun r =>
      match r with
      | Some err => ret (Some err)
      | None => sendEventsLoop c indexName hecURL rest
      end)
  end.

(** [SendEvents]. *)
Definition SendEvents (c : Client) (indexName : string) (events : list Event)
  : IO (option error) :=
  if (Token c =? "")%string
  then ret (Some "HEC requires a token for authentication")
  else
    let hecURL := strings_TrimRight (BaseURL c) "/" +:+ "/services/collector/event" in
    sendEventsLoop c indexName hecURL events.

(** The tail shared by both versions of [Search]: send the prepared
    request, require status 200, decode the body. *)
Definition doSearch (c : Client) (req : http_Request)
  : IO (result (gmap string any)) :=
  bind (io_Do (HTTPClient c) req) (fun r =>
  match r with
  | Err err => ret (Err err)
  | Ok resp =>
      if negb (StatusCode resp =? http_StatusOK)
      then ret (Err ("search request failed: " +:+ Status resp))
      else parseSplunkSearchResults (RespBody resp)
  end).

End Model.

Arguments Run {RT} A.
Arguments mkRun {RT A}.
Arguments value {RT A}.
Arguments final {RT A}.
Arguments log {RT A}.
Arguments Client {RT}.

(** ** [Search] of [src/internal/splunk/splunk.go] *)

Module Internal.
Section InternalSearch.
Context `{RT : Runtime}.

(** The body [prepareHttpRequest] formats from the query. *)
Definition reqBody (query : string) : string :=
  "search=" +:+ query +:+ "&exec_mode=oneshot&output_mode=json".

(** [prepareHttpRequest]. *)
Definition prepareHttpRequest (c : Client) (query : string)
  : result http_Request :=
  let searchURL := BaseURL c +:+ "/services/search/jobs" in
  match http_NewRequest "POST" searchURL (reqBody query) with
  | Err err => Err err
  | Ok req =>
      let req := req_Header_Set req "Content-Type"
                   "application/x-www-form-urlencoded" in
      match setAuthHeader c req with
      | Err err => Err err
      | Ok req => Ok req
      end
  end.

(** [Search(query)]. *)
Definition Search (c : Client) (query : string)
  : IO (result (gmap string any)) :=
  match prepareHttpRequest c query with
  | Err err => ret (Err err)
  | Ok req => doSearch c req
  end.

End InternalSearch.
End Internal.

(** ** [Search] of [src/unnamed/part_000] (variadic options) *)

Module Pkg.
Section PkgSearch.
Context `{RT : Runtime}.

(** The three locals the option loop assigns. *)
Record SearchOpts := mkOpts {
  execMode : string;
  earliestTime : string;
  latestTime : string
}.

(** The defaults set before the loop. *)
Definition defaultOpts : SearchOpts := mkOpts "normal" "" "".

(** One iteration of the loop over [options]. *)
Definition applyOption (o : SearchOpts) (opt : string) : SearchOpts :=
  match strings_SplitN opt "=" 2 with
  | [key; value] =>
      if (key =? "exec_mode")%string
      then mkOpts value (earliestTime o) (latestTime o)
      else if (key =? "earliest_time")%string
      then mkOpts (execMode o) value (latestTime o)
      else if (key =? "latest_time")%string
      then mkOpts (execMode o) (earliestTime o) value
      else o
  | _ => o
  end.

(** The loop [for _, opt := range options]. *)
Definition parseOptions (options : list string) : SearchOpts :=
  fold_left applyOption options defaultOpts.

(** The slice [params] once both conditional appends have run. *)
Definition searchParams (query : string) (o : SearchOpts) : list string :=
  [ "search=" +:+ query; "exec_mode=" +:+ execMode o; "output_mode=json" ]
  ++ (if negb (earliestTime o =? "")%string
      then [ "earliest_time=" +:+ earliestTime o ] else [])
  ++ (if negb (latestTime o =? "")%string
      then [ "latest_time=" +:+ latestTime o ] else []).

(** [reqBody := strings.Join(params, "&")]. *)
Definition reqBody (query : string) (options : list string) : string :=
  strings_Join (searchParams query (parseOptions options)) "&".

(** [Search] up to the call of [HTTPClient.Do]: the request it is about
    to send, or the error it returns instead. *)
Definition searchRequest (c : Client) (query : string) (options : list string)
  : result http_Request :=
  let searchURL := BaseURL c +:+ "/services/search/jobs" in
  match http_NewRequest "POST" searchURL (reqBody query options) with
  | Err err => Err err
  | Ok req =>
      let req := req_Header_Set req "Content-Type"
                   "application/x-www-form-urlencoded" in
      match setAuthHeader c req with
      | Err err => Err err
      | Ok req => Ok req
      end
  end.

(** [Search(query, options...)]. *)
Definition Search (c : Client) (query : string) (options : list string)
  : IO (result (gmap string any)) :=
  match searchRequest c query options with
  | Err err => ret (Err err)
  | Ok req => doSearch c req
  end.

End PkgSearch.
End Pkg.

(** ** [NewClient] of [src/main.go] (the root command) *)

Module Main.
Section MainNewClient.
Context `{RT : Runtime}.

(** This copy sets all four string fields; its HTTP client is
    [&http.Client{}]. *)
Definition NewClient (baseURL username password token : string)
  : result Client :=
  if (token =? "")%string && ((username =? "")%string || (password =? "")%string)
  then Err "either a token or a username and password must be provided"
  else Ok {| BaseURL := baseURL;
             Username := username;
             Password := password;
             Token := token;
             HTTPClient := http_Client_new 0 |}.

End MainNewClient.
End Main.

(** ** Observations used to state the properties *)

(** [strings.Split(s, sep)] for a non-empty [sep]: a string of [n] bytes
    has at most [n + 1] pieces. *)
Definition strings_Split (s sep : string) : list string :=
  strings_SplitN s sep (S (String.length s)).

(** The fields a form-encoded body presents to its reader: the body is
    split at every '&' and each piece at its first '='. *)
Definition form_fields (body : string) : list (string * string) :=
  map (fun piece => match strings_Cut piece "=" with
                    | Some kv => kv
                    | None => (piece, EmptyString)
                    end)
      (strings_Split body "&").

(** The values a form-encoded body gives to the field [key], in order. *)
Definition form_values (key body : string) : list string :=
  map snd (filter (fun kv => fst kv = key) (form_fields body)).

(** The last option of the list that assigns [key], if any: what a
    caller who wrote ["key=value"] last expects to take effect. *)
Fixpoint last_assignment (key : string) (options : list string) : option string :=
  match options with
  | [] => None
  | opt :: rest =>
      match last_assignment key rest with
      | Some v => Some v
      | None =>
          match strings_Cut opt "=" with
          | Some (k, v) => if (k =? key)%string then Some v else None
          | None => None
          end
      end
  end.

(** Whether the byte [a] occurs in [s]. *)
Fixpoint occurs (a : ascii) (s : string) : bool :=
  match s with
  | EmptyString => false
  | String b s' => if Ascii.eqb a b then true else occurs a s'
  end.

(** The option keys [Search] recognizes. *)
Definition recognized (key : string) : Prop :=
  key = "exec_mode" \/ key = "earliest_time" \/ key = "latest_time".

(** "Overrides appear in the body when supplied": every option
    [key=value] of the list, for a recognized key, can be read in the
    body. *)
Definition overrides_appear (q : string) (options : list string) : Prop :=
  forall key v,
    recognized key ->
    In (key +:+ "=" +:+ v) options ->
    strings_Contains (Pkg.reqBody q options) (key +:+ "=" +:+ v) = true.

(** ** What it means for the collector to receive an event *)

Section Delivery.
Context `{RT : Runtime}.

(** The endpoint of the HTTP Event Collector for a client. *)
Definition collectorURL (c : Client) : string :=
  strings_TrimRight (BaseURL c) "/" +:+ "/services/collector/event".

(** [p] is the wrapping [{index, time, event}] of [event]: it has these
    three fields, with the values of the input, and no other. *)
Definition wraps (indexName : string) (event : Event) (p : gmap string any)
  : Prop :=
  p !! "index" = Some (any_string indexName) /\
  p !! "time" = Some (any_int64 (Time event)) /\
  p !! "event" = Some (any_map (Event_ event)) /\
  forall k : string, k <> "index" -> k <> "time" -> k <> "event" -> p !! k = None.

(** [v] is what is serialized for [event]. *)
Definition serializes (indexName : string) (event : Event) (v : any) : Prop :=
  exists p, wraps indexName event p /\ v = any_map p.

(** [req] is the POST that carries [event]: its body is the JSON text
    of the wrapping of [event], it goes to the collector endpoint and
    bears the HEC authorization of the client. *)
Definition carries (c : Client) (indexName : string) (event : Event)
  (req : http_Request) : Prop :=
  Method req = "POST" /\
  URL req = collectorURL c /\
  Header_Get (Header req) "Authorization" = "Splunk " +:+ Token c /\
  Header_Get (Header req) "Content-Type" = "application/json" /\
  exists p, wraps indexName event p /\ json_Marshal (any_map p) = Ok (Body req).

(** [delivered c i events w reqs w']: starting in world [w], the events
    were sent one after the other, in order, by the requests [reqs],
    one per event, each answered with status 200; [w'] is the world
    after the last exchange. *)
Inductive delivered (c : Client) (indexName : string)
  : list Event -> World -> list http_Request -> World -> Prop :=
  | delivered_nil w : delivered c indexName [] w [] w
  | delivered_cons e es w req resp w1 reqs w2 :
      carries c indexName e req ->
      http_Client_Do (HTTPClient c) req w = (Ok resp, w1) ->
      StatusCode resp = 200 ->
      delivered c indexName es w1 reqs w2 ->
      delivered c indexName (e :: es) w (req :: reqs) w2.

(** Where the handling of one event can stop. *)
Inductive Cause : Type :=
  | Serialization
  | RequestCreation
  | Transport
  | BadStatus.

(** [aborted c i e w cause r reqs w']: in world [w] the event [e] fails
    for [cause]; [r] is the error returned for it, [reqs] the request
    issued for it (none when the failure precedes the exchange) and [w']
    the world left. *)
Inductive aborted (c : Client) (indexName : string) (e : Event) (w : World)
  : Cause -> option error -> list http_Request -> World -> Prop :=
  | aborted_marshal p m :
      wraps indexName e p ->
      json_Marshal (any_map p) = Err m ->
      aborted c indexName e w Serialization
        (Some ("failed to marshal event: " +:+ m)) [] w
  | aborted_create p body m :
      wraps indexName e p ->
      json_Marshal (any_map p) = Ok body ->
      url_Parse (collectorURL c) = Some m ->
      aborted c indexName e w RequestCreation
        (Some ("failed to create request: " +:+ m)) [] w
  | aborted_send req m w' :
      carries c indexName e req ->
      http_Client_Do (HTTPClient c) req w = (Err m, w') ->
      aborted c indexName e w Transport
        (Some ("failed to send event: " +:+ m)) [req] w'
  | aborted_status req resp w' :
      carries c indexName e req ->
      http_Client_Do (HTTPClient c) req w = (Ok resp, w') ->
      StatusCode resp <> 200 ->
      aborted c indexName e w BadStatus
        (Some ("failed to send event: " +:+ Status resp +:+ " - "
               +:+ RespBody resp)) [req] w'.

(** The outcome of one iteration of the loop of [SendEvents]. *)
Inductive iteration (c : Client) (indexName : string) (e : Event) (w : World)
  : Run (option error) -> Prop :=
  | iteration_ok req resp w' :
      carries c indexName e req ->
      http_Client_Do (HTTPClient c) req w = (Ok resp, w') ->
      StatusCode resp = 200 ->
      iteration c indexName e w
        (mkRun None w' [EMarshal (any_map (payload indexName e)); EDo req])
  | iteration_abort cause r reqs w' :
      aborted c indexName e w cause (Some r) reqs w' ->
      iteration c indexName e w
        (mkRun (Some r) w'
           (EMarshal (any_map (payload indexName e)) :: map EDo reqs)).

(** The outcome of a whole call of [SendEvents], as a split of the
    events around the first one that fails for a cause that [allowed]
    admits: either all were delivered, or those before the failing one
    were, its error is returned, and its request, if any, is the last. *)
Definition sequential_partial (allowed : Cause -> Prop) (c : Client)
  (indexName : string) (events : list Event) (w : World)
  (run : Run (option error)) : Prop :=
  (value run = None /\
   delivered c indexName events w (requests (log run)) (final run) /\
   Forall2 (serializes indexName) events (marshalled (log run)))
  \/
  (exists pre e post w1 reqs extra cause,
      events = pre ++ e :: post /\
      allowed cause /\
      delivered c indexName pre w reqs w1 /\
      aborted c indexName e w1 cause (value run) extra (final run) /\
      requests (log run) = reqs ++ extra /\
      Forall2 (serializes indexName) (pre ++ [e]) (marshalled (log run))).

(** The causes the specification lists: "fails to serialize, send, or
    returns a non-success status". *)
Definition listed_cause (cause : Cause) : Prop :=
  cause = Serialization \/ cause = Transport \/ cause = BadStatus.

End Delivery.

(** ** A scripted runtime, to run the model on concrete inputs

    The world counts the exchanges made so far; a client is the script
    that answers the [n]-th exchange. The marshaller rejects an event
    whose field "bad" is a channel and otherwise emits a rendering of
    the index name alone; the decoder accepts only the empty object; the
    URL parser rejects exactly the malformed address used by the tests
    of the package. *)

Definition script := nat -> http_Request -> result http_Response.

Definition dquote : string := String (ascii_of_nat 34) EmptyString.

Definition scripted_Marshal (v : any) : result string :=
  match v with
  | any_map m =>
      match m !! "event", m !! "index" with
      | Some (any_map e), Some (any_string i) =>
          match e !! "bad" with
          | Some any_chan => Err "json: unsupported type: chan int"
          | _ => Ok ("{" +:+ dquote +:+ "index" +:+ dquote +:+ ":"
                     +:+ dquote +:+ i +:+ dquote +:+ "}")
          end
      | _, _ => Ok "{}"
      end
  | any_chan => Err "json: unsupported type: chan int"
  | _ => Ok "null"
  end.

Definition scripted_Decode (body : string) : result (gmap string any) :=
  if (body =? "{}")%string then Ok ∅
  else Err "invalid character 'o' in literal null (expecting 'u')".

Definition scripted_Parse (u : string) : option error :=
  if String.prefix "http://[::1]:NamedPort" u
  then Some ("parse " +:+ dquote +:+ u +:+ dquote +:+ ": invalid port "
             +:+ dquote +:+ ":NamedPort" +:+ dquote +:+ " after host")
  else None.

(** The error of [url.Parse] on the malformed address of the tests. *)
Definition malformed_error : error :=
  "parse " +:+ dquote
  +:+ "http://[::1]:NamedPort/services/collector/event" +:+ dquote
  +:+ ": invalid port " +:+ dquote +:+ ":NamedPort" +:+ dquote +:+ " after host".

Definition respond (code : Z) (status body : string) : result http_Response :=
  Ok (mkResponse code status body).

#[local] Instance scripted : Runtime := {|
  World := nat;
  http_Client := script;
  http_Client_new := fun _ => fun _ _ => respond 200 "200 OK" "{}";
  http_Client_Do := fun c req n => (c n req, S n);
  json_Marshal := scripted_Marshal;
  json_Decode := scripted_Decode;
  url_Parse := scripted_Parse
|}.

(** A server that accepts every request. *)
Definition accepting : script := fun _ _ => respond 200 "200 OK" "{}".

(** A server that accepts the first request and rejects the others. *)
Definition rejecting_second : script :=
  fun n _ => match n with
             | O => respond 200 "200 OK" "{}"
             | _ => respond 400 "400 Bad Request" "bad request"
             end.

(** A server that rejects every request. *)
Definition rejecting : script :=
  fun _ _ => respond 400 "400 Bad Request" "bad request".

(** Sample events and clients, after the tests of the package. *)

Definition ev_foo : Event := mkEvent 1234567890 {[ "foo" := any_string "bar" ]}.
Definition ev_baz : Event := mkEvent 1234567891 {[ "baz" := any_string "qux" ]}.
Definition ev_chan : Event := mkEvent 1 {[ "bad" := any_chan ]}.

Definition token_client (s : script) : Client :=
  mkClient "http://localhost:8089" "" "" "test-token" s.

Definition basic_client (s : script) : Client :=
  mkClient "http://localhost:8089" "user" "pass" "" s.

Definition anonymous_client : Client :=
  mkClient "http://localhost:8089" "" "" "" accepting.

Definition malformed_client : Client :=
  mkClient "http://[::1]:NamedPort" "" "" "token123" accepting.

(** The request [Search("foo")] of [basic_client] puts on the wire. *)
Definition foo_request : http_Request :=
  req_Header_Set
    (req_Header_Set
       (mkRequest "POST" "http://localhost:8089/services/search/jobs" ∅
          "search=foo&exec_mode=normal&output_mode=json")
       "Content-Type" "application/x-www-form-urlencoded")
    "Authorization" "Basic dXNlcjpwYXNz".

(** ** Package [encoding/base64]: [StdEncoding.DecodeString]

    The decoder skips carriage returns and line feeds, reads the rest
    four characters at a time and accepts padding in the last group
    only. It does not require the unused low bits of a padded group to
    be zero, as the default decoder of Go does not. *)

Fixpoint index_in (a : ascii) (s : string) (i : N) : option N :=
  match s with
  | EmptyString => None
  | String b s' => if Ascii.eqb a b then Some i else index_in a s' (i + 1)%N
  end.

Definition base64_value (a : ascii) : option N :=
  index_in a base64_alphabet 0%N.

Definition is_pad (a : ascii) : bool := Ascii.eqb a "="%char.

Definition is_newline (a : ascii) : bool :=
  Ascii.eqb a (ascii_of_nat 13) || Ascii.eqb a (ascii_of_nat 10).

Fixpoint base64_decode_chars (l : list ascii) : option (list N) :=
  match l with
  | [] => Some []
  | c0 :: c1 :: c2 :: c3 :: rest =>
      match base64_value c0, base64_value c1 with
      | Some v0, Some v1 =>
          let b0 := N.lor (N.shiftl v0 2) (N.shiftr v1 4) in
          if is_pad c2
          then match rest with
               | [] => if is_pad c3 then Some [b0] else None
               | _ => None
               end
          else
            match base64_value c2 with
            | None => None
            | Some v2 =>
                let b1 := N.lor (N.shiftl (N.land v1 15) 4) (N.shiftr v2 2) in
                if is_pad c3
                then match rest with
                     | [] => Some [b0; b1]
                     | _ => None
                     end
                else
                  match base64_value c3 with
                  | None => None
                  | Some v3 =>
                      let b2 := N.lor (N.shiftl (N.land v2 3) 6) v3 in
                      match base64_decode_chars rest with
                      | Some bytes => Some (b0 :: b1 :: b2 :: bytes)
                      | None => None
                      end
                  end
            end
      | _, _ => None
      end
  | _ => None
  end.

Definition base64_DecodeString (s : string) : option string :=
  match base64_decode_chars
          (List.filter (fun a => negb (is_newline a)) (list_ascii_of_string s)) with
  | Some bytes => Some (string_of_list_ascii (map ascii_of_N bytes))
  | None => None
  end.

(** ** Package [net/http]: [Request.BasicAuth]

    [parseBasicAuth auth]: the scheme must be "Basic " up to ASCII
    case, the rest must be base64 and its decoding is cut at the first
    colon. [None] stands for [ok = false]. *)

Definition parseBasicAuth (auth : string) : option (string * string) :=
  if String.prefix "basic " (string_lower auth)
  then match base64_DecodeString
               (String.substring 6 (String.length auth - 6) auth) with
       | Some cs => strings_Cut cs ":"
       | None => None
       end
  else None.

Definition Request_BasicAuth (req : http_Request) : option (string * string) :=
  let auth := Header_Get (Header req) "Authorization" in
  if (auth =? "")%string then None else parseBasicAuth auth.

(** The values of a byte, and of a base64 digit. *)
Definition byte_values : list N := map N.of_nat (seq 0 256).
Definition digit_values : list N := map N.of_nat (seq 0 64).

(** The second and third digit of a group, as the encoder computes them. *)
Definition digit1 (a b : N) : N := N.lor (N.shiftl (N.land a 3) 4) (N.shiftr b 4).
Definition digit2 (b c : N) : N := N.lor (N.shiftl (N.land b 15) 2) (N.shiftr c 6).

(** What the round trip needs of a digit. *)
Definition digit_check (d : N) : bool :=
  match base64_value (base64_digit d) with
  | Some v => (v =? d)%N
  | None => false
  end
  && negb (is_pad (base64_digit d))
  && negb (is_newline (base64_digit d)).

(** What the round trip needs of the first two bytes of a group. *)
Definition head_check (a b : N) : bool :=
  ((N.shiftr a 2 <? 64) && (digit1 a b <? 64)
   && (N.shiftl (N.land a 3) 4 <? 64)
   && (N.shiftl (N.land b 15) 2 <? 64)
   && (N.lor (N.shiftl (N.shiftr a 2) 2) (N.shiftr (digit1 a b) 4) =? a)
   && (N.lor (N.shiftl (N.shiftr a 2) 2)
         (N.shiftr (N.shiftl (N.land a 3) 4) 4) =? a)
   && (N.land (digit1 a b) 15 =? N.shiftr b 4)
   && (N.lor (N.shiftl (N.shiftr b 4) 4)
         (N.shiftr (N.shiftl (N.land b 15) 2) 2) =? b))%N.

(** What the round trip needs of the last two bytes of a group. *)
Definition tail_check (b c : N) : bool :=
  ((digit2 b c <? 64) && (N.land c 63 <? 64)
   && (N.shiftr (digit2 b c) 2 =? N.land b 15)
   && (N.lor (N.shiftl (N.shiftr b 4) 4) (N.land b 15) =? b)
   && (N.lor (N.shiftl (N.land (digit2 b c) 3) 6) (N.land c 63) =? c))%N.

(** ** Package [os] *)

(** [os.Getenv]: the value of the variable, empty when it is not set. *)
Definition os_Getenv (env : gmap string string) (key : string) : string :=
  default EmptyString (env !! key).

(** ** Package [time]: [time.Parse(time.RFC3339, s)] followed by [Unix()]

    Only the layout without fraction and with the suffix Z is read
    (YYYY-MM-DDTHH:MM:SSZ), which is the one the example uses. *)

Definition digit_of (a : ascii) : option Z :=
  let n := Z.of_N (N_of_ascii a) in
  if (48 <=? n) && (n <=? 57) then Some (n - 48) else None.

Fixpoint digits_value (l : list ascii) (acc : Z) : option Z :=
  match l with
  | [] => Some acc
  | a :: l' =>
      match digit_of a with
      | Some d => digits_value l' (10 * acc + d)
      | None => None
      end
  end.

(** Days from 1970-01-01 to the given date of the proleptic Gregorian
    calendar. *)
Definition days_from_civil (y m d : Z) : Z :=
  let y' := if m <=? 2 then y - 1 else y in
  let era := y' / 400 in
  let yoe := y' - era * 400 in
  let mp := if 2 <? m then m - 3 else m + 9 in
  let doy := (153 * mp + 2) / 5 + d - 1 in
  let doe := yoe * 365 + yoe / 4 - yoe / 100 + doy in
  era * 146097 + doe - 719468.

Definition days_in_month (y m : Z) : Z :=
  if m =? 2
  then if ((y mod 4 =? 0) && negb (y mod 100 =? 0)) || (y mod 400 =? 0)
       then 29 else 28
  else if (m =? 4) || (m =? 6) || (m =? 9) || (m =? 11) then 30 else 31.

Definition time_Parse_RFC3339_Unix (s : string) : result Z :=
  match list_ascii_of_string s with
  | [y1; y2; y3; y4; s1; m1; m2; s2; d1; d2; t; h1; h2; c1; i1; i2; c2; e1; e2; z] =>
      match digits_value [y1; y2; y3; y4] 0, digits_value [m1; m2] 0,
            digits_value [d1; d2] 0, digits_value [h1; h2] 0,
            digits_value [i1; i2] 0, digits_value [e1; e2] 0 with
      | Some y, Some m, Some d, Some h, Some i, Some e =>
          if Ascii.eqb s1 "-" && Ascii.eqb s2 "-" && Ascii.eqb t "T"
             && Ascii.eqb c1 ":" && Ascii.eqb c2 ":" && Ascii.eqb z "Z"
             && (1 <=? m) && (m <=? 12) && (1 <=? d) && (d <=? days_in_month y m)
             && (h <=? 23) && (i <=? 59) && (e <=? 59)
          then Ok (days_from_civil y m d * 86400 + h * 3600 + i * 60 + e)
          else Err "parsing time: out of range or malformed"
      | _, _, _, _, _, _ => Err "parsing time: malformed"
      end
  | _ => Err "parsing time: malformed"
  end.

(** ** The commands of [src/main.go] *)

(** [main] of the first file of [src/main.go], which builds its client
    with the [NewClient] of that file; the result is what it prints,
    line by line. *)
Module RootCmd.
Section RootMain.
Context `{RT : Runtime}.

Definition main (env : gmap string string) : list string :=
  let splunkURL := "https://localhost:8089" in
  let token := os_Getenv env "SPLUNK_TOKEN" in
  let username := os_Getenv env "SPLUNK_USERNAME" in
  let password := os_Getenv env "SPLUNK_PASSWORD" in
  match Main.NewClient splunkURL username password token with
  | Err err => ["Error creating Splunk client: " +:+ err]
  | Ok client =>
      ["Splunk client created successfully!";
       if negb (Token client =? "")%string
       then "Authentication method: Token"
       else "Authentication method: Username/Password"]
  end.

End RootMain.
End RootCmd.

(** [main] of the second file of [src/main.go] and of
    [src/unnamed/part_002], which build their client with the
    [NewClient] of the package. *)
Module Cmd.
Section CmdMain.
Context `{RT : Runtime}.

Definition main (env : gmap string string) : list string :=
  let splunkURL := "https://localhost:8089" in
  let token := os_Getenv env "SPLUNK_TOKEN" in
  let username := os_Getenv env "SPLUNK_USERNAME" in
  let password := os_Getenv env "SPLUNK_PASSWORD" in
  match NewClient splunkURL username password token with
  | Err err => ["Error creating Splunk client: " +:+ err]
  | Ok client =>
      ["Splunk client created successfully!";
       if negb (Token client =? "")%string
       then "Authentication method: Token"
       else "Authentication method: Username/Password"]
  end.

End CmdMain.
End Cmd.

(** ** [ExampleSendEvents] of [src/examples/example_sendEvents.go] *)

Module Examples.
Section ExamplesSendEvents.
Context `{RT : Runtime}.

(** The event the example sends, for the time [t]. *)
Definition hello (t : Z) : Event :=
  mkEvent t {[ "message" := any_string "Hello, Splunk!" ]}.

Definition ExampleSendEvents (env : gmap string string) : IO (list string) :=
  let splunkURL := "https://localhost:8089" in
  let token := os_Getenv env "SPLUNK_TOKEN" in
  let username := os_Getenv env "SPLUNK_USERNAME" in
  let password := os_Getenv env "SPLUNK_PASSWORD" in
  match NewClient splunkURL username password token with
  | Err err => ret ["Error creating Splunk client: " +:+ err]
  | Ok client =>
      match time_Parse_RFC3339_Unix "2023-01-01T00:00:00Z" with
      | Err err => ret ["Error parsing time: " +:+ err]
      | Ok t =>
          bind (SendEvents client "test_index" [hello t]) (fun err =>
          match err with
          | Some e => ret ["Error sending event: " +:+ e]
          | None => ret ["Event sent successfully!"]
          end)
      end
  end.

End ExamplesSendEvents.
End Examples.

(** ** Further observations *)

(** The key an option assigns: the text before its first '='. *)
Definition option_key (opt : string) : option string :=
  match strings_Cut opt "=" with
  | Some (k, _) => Some k
  | None => None
  end.

(** Whether a string ends with a slash. *)
Fixpoint ends_with_slash (s : string) : bool :=
  match s with
  | EmptyString => false
  | String a EmptyString => Ascii.eqb a "/"
  | String _ s' => ends_with_slash s'
  end.

(** The client [c] with another base URL. *)
Definition with_BaseURL `{RT : Runtime} (c : Client) (baseURL : string) : Client :=
  mkClient baseURL (Username c) (Password c) (Token c) (HTTPClient c).

(** Two runs in sequence: the second starts where the first stopped. *)
Definition then_run `{RT : Runtime} {A} (r1 : Run A) (k : World -> Run A) : Run A :=
  let r2 := k (final r1) in
  mkRun (value r2) (final r2) (log r1 ++ log r2).

(** ** Further scripts and samples *)

(** A server that cannot be reached. *)
Definition unreachable : script := fun _ _ => Err "connection refused".

(** A client whose user name has a colon in it. *)
Definition colon_client : Client :=
  mkClient "http://localhost:8089" "a:b" "pass" "" accepting.

(** A request that bears no header yet. *)
Definition bare_request : http_Request :=
  mkRequest "POST" "http://localhost:8089/services/search/jobs" ∅ "search=foo".


(** * Properties *)

(** ** Facts about the string functions *)

Lemma substring_all (s : string) :
  String.substring 0 (String.length s) s = s.
Proof. induction s as [|a s IH]; simpl; [reflexivity | now rewrite IH]. Qed.

Lemma prefix_char (a b : ascii) (s : string) :
  String.prefix (String a EmptyString) (String b s) = Ascii.eqb a b.
Proof.
  simpl. destruct (ascii_dec a b) as [->|Hne].
  - rewrite Ascii.eqb_refl. now destruct s.
  - symmetry. now apply Ascii.eqb_neq.
Qed.

Lemma Cut_char_cons (a b : ascii) (s : string) :
  strings_Cut (String b s) (String a EmptyString) =
  if Ascii.eqb a b then Some (EmptyString, s)
  else match strings_Cut s (String a EmptyString) with
       | Some (before, after) => Some (String b before, after)
       | None => None
       end.
Proof.
  cbn [strings_Cut]. rewrite prefix_char.
  destruct (Ascii.eqb a b); [|reflexivity].
  cbn [String.length String.substring Nat.sub]. rewrite Nat.sub_0_r.
  now rewrite substring_all.
Qed.

(** A string in which the separator byte does not occur is not cut. *)
Lemma Cut_absent (a : ascii) (s : string) :
  occurs a s = false -> strings_Cut s (String a EmptyString) = None.
Proof.
  induction s as [|b s IH]; intros H; [reflexivity|].
  rewrite Cut_char_cons. simpl in H.
  destruct (Ascii.eqb a b); [discriminate|]. now rewrite IH.
Qed.

(** The cut happens at the first occurrence of the separator byte. *)
Lemma Cut_first (a : ascii) (k v : string) :
  occurs a k = false ->
  strings_Cut (k +:+ String a v) (String a EmptyString) = Some (k, v).
Proof.
  induction k as [|b k IH]; intros H.
  - change (EmptyString +:+ String a v) with (String a v).
    rewrite Cut_char_cons, Ascii.eqb_refl. reflexivity.
  - simpl in H. change (String b k +:+ String a v) with (String b (k +:+ String a v)).
    rewrite Cut_char_cons. destruct (Ascii.eqb a b); [discriminate|].
    now rewrite IH.
Qed.

Lemma string_app_assoc (a b c : string) : (a +:+ b) +:+ c = a +:+ (b +:+ c).
Proof.
  induction a as [|x a IH]; [reflexivity|].
  change (String x ((a +:+ b) +:+ c) = String x (a +:+ (b +:+ c))).
  now rewrite IH.
Qed.

Lemma string_app_nil_r (a : string) : a +:+ "" = a.
Proof.
  induction a as [|x a IH]; [reflexivity|].
  change (String x (a +:+ "") = String x a). now rewrite IH.
Qed.

Lemma strings_Cut_unfold (s sep : string) :
  strings_Cut s sep =
  if String.prefix sep s
  then Some (EmptyString, String.substring (String.length sep)
                            (String.length s - String.length sep)%nat s)
  else match s with
       | EmptyString => None
       | String a s' =>
           match strings_Cut s' sep with
           | Some (before, after) => Some (String a before, after)
           | None => None
           end
       end.
Proof. destruct s; reflexivity. Qed.

Lemma prefix_app (sub post : string) : String.prefix sub (sub +:+ post) = true.
Proof.
  induction sub as [|a sub IH]; [now destruct post|].
  change (String a sub +:+ post) with (String a (sub +:+ post)).
  cbn [String.prefix]. now destruct (ascii_dec a a).
Qed.

(** A string that has [sub] inside is cut by [sub]. *)
Lemma Cut_infix (pre sub post : string) :
  exists x, strings_Cut (pre +:+ sub +:+ post) sub = Some x.
Proof.
  induction pre as [|a pre [[b r] IH]].
  - change (EmptyString +:+ sub +:+ post) with (sub +:+ post).
    rewrite strings_Cut_unfold, prefix_app. eauto.
  - change (String a pre +:+ sub +:+ post) with (String a (pre +:+ sub +:+ post)).
    rewrite strings_Cut_unfold.
    destruct (String.prefix sub _); [eauto|]. rewrite IH. eauto.
Qed.

Lemma Contains_infix (pre sub post : string) :
  strings_Contains (pre +:+ sub +:+ post) sub = true.
Proof.
  unfold strings_Contains. now destruct (Cut_infix pre sub post) as [x ->].
Qed.

Lemma Contains_eq (s pre sub post : string) :
  s = pre +:+ sub +:+ post -> strings_Contains s sub = true.
Proof. intros ->. apply Contains_infix. Qed.

Section Properties.
Context `{RT : Runtime}.

Lemma payload_wraps (indexName : string) (e : Event) :
  wraps indexName e (payload indexName e).
Proof.
  unfold wraps, payload. repeat split.
  - intros k H1 H2 H3.
    rewrite !lookup_insert_ne by congruence.
    now rewrite lookup_singleton_ne by congruence.
Qed.

Lemma sendEvent_iteration (c : Client) (indexName : string) (e : Event)
  (w : World) :
  iteration c indexName e w (sendEvent c indexName (collectorURL c) e w).
Proof.
  pose proof (payload_wraps indexName e) as Hp.
  unfold sendEvent, bind, io_Marshal, http_NewRequest; simpl.
  destruct (json_Marshal (any_map (payload indexName e))) as [body|m] eqn:Hm.
  2:{ simpl. apply (iteration_abort _ _ _ _ Serialization _ []). eapply aborted_marshal; eauto. }
  destruct (url_Parse (collectorURL c)) as [m|] eqn:Hu.
  { simpl. apply (iteration_abort _ _ _ _ RequestCreation _ []). eapply aborted_create; eauto. }
  set (req := req_Header_Set _ "Content-Type" _).
  assert (Hc : carries c indexName e req).
  { unfold carries. repeat split; try reflexivity. exists (payload indexName e). auto. }
  unfold io_Do. simpl.
  destruct (http_Client_Do (HTTPClient c) req w) as [[resp|m] w'] eqn:Hd; simpl.
  - destruct (Z.eqb_spec (StatusCode resp) http_StatusOK) as [Hs|Hs]; simpl.
    + eapply iteration_ok; eauto.
    + apply (iteration_abort _ _ _ _ BadStatus _ [req]). eapply aborted_status; eauto.
  - apply (iteration_abort _ _ _ _ Transport _ [req]). eapply aborted_send; eauto.
Qed.

Lemma requests_map_EDo (reqs : list http_Request) :
  requests (map EDo reqs) = reqs.
Proof. induction reqs as [|r reqs IH]; simpl; [reflexivity | now rewrite IH]. Qed.

Lemma marshalled_map_EDo (reqs : list http_Request) :
  marshalled (map EDo reqs) = [].
Proof. induction reqs as [|r reqs IH]; simpl; [reflexivity | exact IH]. Qed.

(** The loop of [SendEvents]: either every event was delivered, or the
    events split around the first one that failed. *)
Lemma sendEventsLoop_spec (c : Client) (indexName : string)
  (events : list Event) (w : World) :
  sequential_partial (fun _ => True) c indexName events w
    (sendEventsLoop c indexName (collectorURL c) events w).
Proof.
  unfold sequential_partial.
  revert w. induction events as [|e rest IH]; intros w.
  - left. repeat split; constructor.
  - assert (Hser : serializes indexName e (any_map (payload indexName e))).
    { exists (payload indexName e). split; [apply payload_wraps | reflexivity]. }
    cbn [sendEventsLoop]. unfold bind.
    pose proof (sendEvent_iteration c indexName e w) as Hit.
    remember (sendEvent c indexName (collectorURL c) e w) as r eqn:Hr.
    destruct Hit as [req resp w' Hc Hd Hs | cause err reqs w' Hab];
      cbn [value final log ret app requests marshalled].
    + specialize (IH w').
      destruct IH as [(Hv & Hdel & Hm)
                     | (pre & e' & post & w1 & reqs & extra & cause & He & _
                        & Hdel & Hab & Hreq & Hm)].
      * left. repeat split; [exact Hv | | constructor; assumption].
        econstructor; eauto.
      * right. exists (e :: pre), e', post, w1, (req :: reqs), extra, cause.
        repeat split.
        -- now rewrite He.
        -- econstructor; eauto.
        -- exact Hab.
        -- now rewrite Hreq.
        -- simpl. constructor; assumption.
    + right. exists [], e, rest, w, [], reqs, cause.
      repeat split.
      * constructor.
      * exact Hab.
      * now rewrite app_nil_r, requests_map_EDo.
      * rewrite app_nil_r, marshalled_map_EDo. simpl. repeat constructor. exact Hser.
Qed.

(** *** Event ingestion *)

(** C1 (amended). With a non-empty token, [SendEvents] handles the
    events one after the other in input order. Either it returns [nil],
    and then every event was POSTed exactly once, in order, with a body
    that is the JSON text of its [{index, time, event}] wrapping; or the
    events split as [pre ++ e :: post] where [e] is the first event that
    fails, at serialization, at the creation of its request, in
    transport or by a status other than 200: the events of [pre] were
    delivered exactly once each, the call returns the error of [e], the
    request of [e] is the last one issued if it was issued at all, and
    nothing is serialized or sent for [post]. *)
Theorem C1_SendEvents_sequential_partial (c : Client) (indexName : string)
  (events : list Event) (w : World) :
  Token c <> "" ->
  sequential_partial (fun _ => True) c indexName events w
    (SendEvents c indexName events w).
Proof.
  intros Htok. unfold SendEvents.
  destruct (String.eqb_spec (Token c) "") as [Heq|_]; [contradiction|].
  apply sendEventsLoop_spec.
Qed.

(** C6. Without a token, [SendEvents] returns its error at once: the
    world is untouched and the log of the call is empty, so nothing was
    serialized and no request was made, whatever the events. *)
Theorem C6_SendEvents_requires_token (c : Client) (indexName : string)
  (events : list Event) (w : World) :
  Token c = "" ->
  let run := SendEvents c indexName events w in
  value run = Some "HEC requires a token for authentication" /\
  log run = [] /\
  requests (log run) = [] /\
  marshalled (log run) = [] /\
  final run = w.
Proof.
  intros Htok. unfold SendEvents. rewrite Htok. simpl. repeat split.
Qed.

(** *** Sent requests *)

Lemma delivered_carried (c : Client) (indexName : string)
  (events : list Event) (w w' : World) (reqs : list http_Request) :
  delivered c indexName events w reqs w' ->
  Forall2 (carries c indexName) events reqs.
Proof. induction 1; constructor; assumption. Qed.

Lemma aborted_carried (c : Client) (indexName : string) (e : Event)
  (w w' : World) (cause : Cause) (r : option error) (reqs : list http_Request) :
  aborted c indexName e w cause r reqs w' ->
  Forall (carries c indexName e) reqs.
Proof.
  destruct 1; try apply List.Forall_nil;
    (apply List.Forall_cons; [assumption | apply List.Forall_nil]).
Qed.

Lemma Forall2_In_r {A B} (P : A -> B -> Prop) (l : list A) (k : list B) (y : B) :
  Forall2 P l k -> In y k -> exists x, P x y.
Proof.
  induction 1 as [|x y' l k Hxy _ IH]; intros Hin; [destruct Hin|].
  destruct Hin as [->|Hin]; [now exists x | auto].
Qed.

(** Every request [SendEvents] issues bears the HEC authorization. *)
Lemma SendEvents_authorization (c : Client) (indexName : string)
  (events : list Event) (w : World) (req : http_Request) :
  In req (requests (log (SendEvents c indexName events w))) ->
  Header_Get (Header req) "Authorization" = "Splunk " +:+ Token c.
Proof.
  unfold SendEvents.
  destruct (String.eqb_spec (Token c) "") as [Heq|_]; [intros []|].
  intros Hin.
  change (In req (requests (log (sendEventsLoop c indexName (collectorURL c)
                                   events w)))) in Hin.
  assert (Hall : exists e, carries c indexName e req).
  { destruct (sendEventsLoop_spec c indexName events w)
      as [(_ & Hdel & _)
       | (pre & e & post & w1 & reqs & extra & cause & _ & _ & Hdel & Hab & Hreq & _)].
    - apply delivered_carried in Hdel. eapply Forall2_In_r; eauto.
    - rewrite Hreq in Hin. apply in_app_or in Hin as [Hin|Hin].
      + apply delivered_carried in Hdel. eapply Forall2_In_r; eauto.
      + apply aborted_carried in Hab. exists e.
        rewrite List.Forall_forall in Hab. now apply Hab. }
  destruct Hall as (e & _ & _ & Hauth & _). exact Hauth.
Qed.

(** *** Construction *)

Lemma credentials_missing_iff (username password token : string) :
  (token =? "")%string && ((username =? "")%string || (password =? "")%string) = true
  <-> token = "" /\ (username = "" \/ password = "").
Proof.
  rewrite andb_true_iff, orb_true_iff, !String.eqb_eq. reflexivity.
Qed.

(** C5. [NewClient] fails exactly when the token is empty and the
    user name or the password is empty; the failure is the
    configuration error; any complete credential set makes it succeed.
    The copy of [src/main.go] decides in the same way. *)
Theorem C5_NewClient_fails_iff (baseURL username password token : string) :
  ((exists e, NewClient baseURL username password token = Err e) <->
   token = "" /\ (username = "" \/ password = "")) /\
  (forall e, NewClient baseURL username password token = Err e ->
             e = "either a token or a username and password must be provided") /\
  (token <> "" \/ (username <> "" /\ password <> "") ->
   exists c, NewClient baseURL username password token = Ok c) /\
  ((exists e, Main.NewClient baseURL username password token = Err e) <->
   token = "" /\ (username = "" \/ password = "")).
Proof.
  pose proof (credentials_missing_iff username password token) as Hg.
  unfold NewClient, Main.NewClient.
  destruct ((token =? "")%string && ((username =? "")%string || (password =? "")%string)).
  - assert (HP : token = "" /\ (username = "" \/ password = "")) by now apply Hg.
    split; [split; [intros _; exact HP | intros _; eauto]|].
    split; [intros e [= <-]; reflexivity|].
    split; [intros Hc; exfalso; intuition congruence|].
    split; [intros _; exact HP | intros _; eauto].
  - assert (HP : ~ (token = "" /\ (username = "" \/ password = ""))).
    { intros HP. apply Hg in HP. discriminate. }
    split; [split; [intros [e He]; discriminate | intros H; contradiction]|].
    split; [intros e He; discriminate|].
    split; [intros _; eauto|].
    split; [intros [e He]; discriminate | intros H; contradiction].
Qed.

(** C2. The client [NewClient] builds for "user"/"pass" and no token
    has an empty [Password]: the password argument is not stored.
    [setAuthHeader] therefore rejects every request of that client and
    its searches fail before anything is sent. The copy of
    [src/main.go] stores the same arguments in all four fields. *)
Theorem C2_NewClient_drops_password :
  (exists c, NewClient "http://localhost" "user" "pass" "" = Ok c /\
             BaseURL c = "http://localhost" /\
             Username c = "user" /\
             Token c = "" /\
             Password c = "" /\
             Password c <> "pass" /\
             (forall req, setAuthHeader c req =
                          Err "no authentication credentials provided") /\
             (forall q w,
                 log (Internal.Search c q w) = [] /\
                 final (Internal.Search c q w) = w /\
                 exists e, value (Internal.Search c q w) = Err e) /\
             (forall q options w,
                 log (Pkg.Search c q options w) = [] /\
                 final (Pkg.Search c q options w) = w /\
                 exists e, value (Pkg.Search c q options w) = Err e)) /\
  (exists c, Main.NewClient "http://localhost" "user" "pass" "" = Ok c /\
             BaseURL c = "http://localhost" /\
             Username c = "user" /\
             Password c = "pass" /\
             Token c = "").
Proof.
  split.
  - eexists. split; [reflexivity|]. cbn [BaseURL Username Token Password].
    do 6 (split; [reflexivity || discriminate|]). split.
    + intros q w.
      unfold Internal.Search, Internal.prepareHttpRequest, http_NewRequest.
      destruct (url_Parse _) as [e|]; cbn; eauto.
    + intros q options w.
      unfold Pkg.Search, Pkg.searchRequest, http_NewRequest.
      destruct (url_Parse _) as [e|]; cbn; eauto.
  - eexists. split; [reflexivity|]. repeat split.
Qed.

(** *** Searching *)

(** What [doSearch] does with the answer of the server. *)
Lemma doSearch_run (c : Client) (req : http_Request) (w : World) :
  doSearch c req w =
  match http_Client_Do (HTTPClient c) req w with
  | (Err m, w') => mkRun (Err m) w' [EDo req]
  | (Ok resp, w') =>
      if StatusCode resp =? 200
      then mkRun (json_Decode (RespBody resp)) w'
             [EDo req; EDecode (RespBody resp)]
      else mkRun (Err ("search request failed: " +:+ Status resp)) w' [EDo req]
  end.
Proof.
  unfold doSearch, bind, io_Do, parseSplunkSearchResults, io_Decode, ret,
    http_StatusOK.
  destruct (http_Client_Do (HTTPClient c) req w) as [[resp|m] w']; cbn;
    [destruct (StatusCode resp =? 200)|]; reflexivity.
Qed.

Lemma doSearch_requests (c : Client) (req : http_Request) (w : World) :
  requests (log (doSearch c req w)) = [req].
Proof.
  rewrite doSearch_run.
  destruct (http_Client_Do (HTTPClient c) req w) as [[resp|m] w'];
    [destruct (StatusCode resp =? 200)|]; reflexivity.
Qed.

(** The requests of a search: the prepared one, if there is one. *)
Lemma Pkg_Search_requests (c : Client) (q : string) (options : list string)
  (w : World) :
  requests (log (Pkg.Search c q options w)) =
  match Pkg.searchRequest c q options with
  | Ok req => [req]
  | Err _ => []
  end.
Proof.
  unfold Pkg.Search. destruct (Pkg.searchRequest c q options); [|reflexivity].
  apply doSearch_requests.
Qed.

Lemma Internal_Search_requests (c : Client) (q : string) (w : World) :
  requests (log (Internal.Search c q w)) =
  match Internal.prepareHttpRequest c q with
  | Ok req => [req]
  | Err _ => []
  end.
Proof.
  unfold Internal.Search. destruct (Internal.prepareHttpRequest c q); [|reflexivity].
  apply doSearch_requests.
Qed.

Lemma Header_Get_Set (h : http_Header) (key value : string) :
  Header_Get (Header_Set h key value) key = value.
Proof. unfold Header_Get, Header_Set. now rewrite lookup_insert_eq. Qed.

(** [setAuthHeader] touches the headers only. *)
Lemma setAuthHeader_frame (c : Client) (req req' : http_Request) :
  setAuthHeader c req = Ok req' ->
  Method req' = Method req /\ URL req' = URL req /\ Body req' = Body req.
Proof.
  unfold setAuthHeader.
  destruct (negb (Token c =? "")%string); [intros [= <-]; now repeat split|].
  destruct (negb (Username c =? "")%string && negb (Password c =? "")%string);
    [intros [= <-]; now repeat split | discriminate].
Qed.

(** The three branches of [setAuthHeader], in their order. *)
Lemma setAuthHeader_token (c : Client) (req : http_Request) :
  Token c <> "" ->
  setAuthHeader c req =
  Ok (req_Header_Set req "Authorization" ("Bearer " +:+ Token c)).
Proof.
  intros Ht. unfold setAuthHeader.
  destruct (String.eqb_spec (Token c) ""); [contradiction | reflexivity].
Qed.

Lemma setAuthHeader_basic (c : Client) (req : http_Request) :
  Token c = "" -> Username c <> "" -> Password c <> "" ->
  setAuthHeader c req = Ok (SetBasicAuth req (Username c) (Password c)).
Proof.
  intros Ht Hu Hp. unfold setAuthHeader. rewrite Ht. cbn.
  destruct (String.eqb_spec (Username c) ""); [contradiction|].
  destruct (String.eqb_spec (Password c) ""); [contradiction | reflexivity].
Qed.

Lemma setAuthHeader_none (c : Client) (req : http_Request) :
  Token c = "" -> Username c = "" \/ Password c = "" ->
  setAuthHeader c req = Err "no authentication credentials provided".
Proof.
  intros Ht H. unfold setAuthHeader. rewrite Ht. cbn.
  destruct H as [-> | ->]; cbn; [reflexivity|].
  now rewrite andb_false_r.
Qed.

(** A prepared search request is the output of [setAuthHeader]. *)
Lemma Pkg_searchRequest_inv (c : Client) (q : string) (options : list string)
  (req : http_Request) :
  Pkg.searchRequest c q options = Ok req ->
  exists req0, setAuthHeader c req0 = Ok req /\
               Method req0 = "POST" /\
               URL req0 = BaseURL c +:+ "/services/search/jobs" /\
               Body req0 = Pkg.reqBody q options.
Proof.
  unfold Pkg.searchRequest, http_NewRequest.
  destruct (url_Parse _); [discriminate|].
  destruct (setAuthHeader c _) as [r|] eqn:Ha; [|discriminate].
  intros [= <-]. eexists. split; [exact Ha|]. now repeat split.
Qed.

Lemma Internal_prepareHttpRequest_inv (c : Client) (q : string)
  (req : http_Request) :
  Internal.prepareHttpRequest c q = Ok req ->
  exists req0, setAuthHeader c req0 = Ok req /\
               Method req0 = "POST" /\
               URL req0 = BaseURL c +:+ "/services/search/jobs" /\
               Body req0 = Internal.reqBody q.
Proof.
  unfold Internal.prepareHttpRequest, http_NewRequest.
  destruct (url_Parse _); [discriminate|].
  destruct (setAuthHeader c _) as [r|] eqn:Ha; [|discriminate].
  intros [= <-]. eexists. split; [exact Ha|]. now repeat split.
Qed.

(** Whatever a search sends came out of [setAuthHeader]. *)
Lemma Pkg_Search_sent (c : Client) (q : string) (options : list string)
  (w : World) (req : http_Request) :
  In req (requests (log (Pkg.Search c q options w))) ->
  exists req0, setAuthHeader c req0 = Ok req /\
               Body req0 = Pkg.reqBody q options.
Proof.
  rewrite Pkg_Search_requests.
  destruct (Pkg.searchRequest c q options) as [r|] eqn:Hr; [|intros []].
  intros [<-|[]]. apply Pkg_searchRequest_inv in Hr as (req0 & ? & _ & _ & ?).
  eauto.
Qed.

Lemma Internal_Search_sent (c : Client) (q : string) (w : World)
  (req : http_Request) :
  In req (requests (log (Internal.Search c q w))) ->
  exists req0, setAuthHeader c req0 = Ok req /\
               Body req0 = Internal.reqBody q.
Proof.
  rewrite Internal_Search_requests.
  destruct (Internal.prepareHttpRequest c q) as [r|] eqn:Hr; [|intros []].
  intros [<-|[]]. apply Internal_prepareHttpRequest_inv in Hr as (req0 & ? & _ & _ & ?).
  eauto.
Qed.

(** A search that cannot authenticate sends nothing. *)
Lemma Pkg_Search_unauthenticated (c : Client) (q : string)
  (options : list string) (w : World) :
  (forall req, setAuthHeader c req = Err "no authentication credentials provided") ->
  log (Pkg.Search c q options w) = [] /\
  final (Pkg.Search c q options w) = w /\
  (exists e, value (Pkg.Search c q options w) = Err e) /\
  (url_Parse (BaseURL c +:+ "/services/search/jobs") = None ->
   value (Pkg.Search c q options w) = Err "no authentication credentials provided").
Proof.
  intros Ha. unfold Pkg.Search, Pkg.searchRequest, http_NewRequest.
  destruct (url_Parse _) as [e|].
  - cbn. repeat split; [eauto | discriminate].
  - rewrite Ha. cbn. repeat split; eauto.
Qed.

Lemma bearer_header (c : Client) (req : http_Request) :
  let req' := req_Header_Set req "Authorization" ("Bearer " +:+ Token c) in
  Header_Get (Header req') "Authorization" = "Bearer " +:+ Token c /\
  hasBasicAuthScheme req' = false.
Proof.
  cbn zeta. unfold hasBasicAuthScheme. cbn [Header req_Header_Set].
  rewrite Header_Get_Set. split; reflexivity.
Qed.

Lemma basic_header (req : http_Request) (username password : string) :
  let req' := SetBasicAuth req username password in
  Header_Get (Header req') "Authorization" =
    "Basic " +:+ base64_EncodeToString (username +:+ ":" +:+ password) /\
  hasBasicAuthScheme req' = true.
Proof.
  cbn zeta. unfold hasBasicAuthScheme, SetBasicAuth. cbn [Header req_Header_Set].
  rewrite Header_Get_Set. split; [reflexivity|].
  generalize (base64_EncodeToString (username +:+ ":" +:+ password)).
  intros s. destruct s; reflexivity.
Qed.

(** C4. [setAuthHeader] decides by three ordered branches. With a
    token the request gets the header "Bearer <token>" and no basic
    authentication, whatever the user name and password are, and so
    does every request a search sends. Without a token but with a user
    name and a password it gets HTTP basic authentication. Otherwise
    it fails with the authentication error, and a search sends nothing
    and fails: with that same error whenever its URL parses (a URL that
    does not parse is refused earlier, by [http.NewRequest]). *)
Theorem C4_setAuthHeader_three_branches (c : Client) (req : http_Request) :
  (Token c <> "" ->
   (exists req', setAuthHeader c req = Ok req' /\
      Header_Get (Header req') "Authorization" = "Bearer " +:+ Token c /\
      hasBasicAuthScheme req' = false) /\
   (forall q options w r,
      In r (requests (log (Pkg.Search c q options w))) ->
      Header_Get (Header r) "Authorization" = "Bearer " +:+ Token c /\
      hasBasicAuthScheme r = false))
  /\
  (Token c = "" -> Username c <> "" -> Password c <> "" ->
   (exists req', setAuthHeader c req = Ok req' /\
      Header_Get (Header req') "Authorization" =
        "Basic " +:+ base64_EncodeToString (Username c +:+ ":" +:+ Password c) /\
      hasBasicAuthScheme req' = true) /\
   (forall q options w r,
      In r (requests (log (Pkg.Search c q options w))) ->
      Header_Get (Header r) "Authorization" =
        "Basic " +:+ base64_EncodeToString (Username c +:+ ":" +:+ Password c) /\
      hasBasicAuthScheme r = true))
  /\
  (Token c = "" -> Username c = "" \/ Password c = "" ->
   setAuthHeader c req = Err "no authentication credentials provided" /\
   (forall q options w,
      log (Pkg.Search c q options w) = [] /\
      final (Pkg.Search c q options w) = w /\
      (exists e, value (Pkg.Search c q options w) = Err e) /\
      (url_Parse (BaseURL c +:+ "/services/search/jobs") = None ->
       value (Pkg.Search c q options w) =
         Err "no authentication credentials provided"))).
Proof.
  split; [|split].
  - intros Ht. split.
    + eexists. split; [now apply setAuthHeader_token|]. apply bearer_header.
    + intros q options w r Hin.
      apply Pkg_Search_sent in Hin as (req0 & Ha & _).
      rewrite setAuthHeader_token in Ha by assumption.
      injection Ha as <-. apply bearer_header.
  - intros Ht Hu Hp. split.
    + eexists. split; [now apply setAuthHeader_basic|]. apply basic_header.
    + intros q options w r Hin.
      apply Pkg_Search_sent in Hin as (req0 & Ha & _).
      rewrite setAuthHeader_basic in Ha by assumption.
      injection Ha as <-. apply basic_header.
  - intros Ht Hup. split; [now apply setAuthHeader_none|].
    intros q options w. apply Pkg_Search_unauthenticated.
    intros r. now apply setAuthHeader_none.
Qed.

(** C8. When the server answers the request of a search with a status
    other than 200, [Search] returns the error "search request failed: "
    followed by the status text of the response, which that error thus
    contains, and the JSON decoder is never run on the body. Both
    versions of [Search] do so. *)
Theorem C8_Search_non200_not_parsed (c : Client) (q : string)
  (options : list string) (w w' : World) (req : http_Request)
  (resp : http_Response) :
  http_Client_Do (HTTPClient c) req w = (Ok resp, w') ->
  StatusCode resp <> 200 ->
  strings_Contains ("search request failed: " +:+ Status resp) (Status resp) = true
  /\
  (requests (log (Pkg.Search c q options w)) = [req] ->
   value (Pkg.Search c q options w) =
     Err ("search request failed: " +:+ Status resp) /\
   decoded (log (Pkg.Search c q options w)) = [])
  /\
  (requests (log (Internal.Search c q w)) = [req] ->
   value (Internal.Search c q w) =
     Err ("search request failed: " +:+ Status resp) /\
   decoded (log (Internal.Search c q w)) = []).
Proof.
  intros Hd Hs. apply Z.eqb_neq in Hs. split; [|split].
  - apply (Contains_eq _ "search request failed: " _ "").
    now rewrite string_app_nil_r.
  - rewrite Pkg_Search_requests. unfold Pkg.Search.
    destruct (Pkg.searchRequest c q options) as [r|]; [|discriminate].
    intros [= ->]. rewrite doSearch_run, Hd, Hs. split; reflexivity.
  - rewrite Internal_Search_requests. unfold Internal.Search.
    destruct (Internal.prepareHttpRequest c q) as [r|]; [|discriminate].
    intros [= ->]. rewrite doSearch_run, Hd, Hs. split; reflexivity.
Qed.

(** C9. With a non-empty token, every request a search sends bears
    "Bearer <token>" and every request [SendEvents] sends bears
    "Splunk <token>"; the two header values are never the same. *)
Theorem C9_search_and_ingestion_schemes_differ (c : Client) :
  Token c <> "" ->
  (forall q options w req,
      In req (requests (log (Pkg.Search c q options w))) ->
      Header_Get (Header req) "Authorization" = "Bearer " +:+ Token c) /\
  (forall q w req,
      In req (requests (log (Internal.Search c q w))) ->
      Header_Get (Header req) "Authorization" = "Bearer " +:+ Token c) /\
  (forall indexName events w req,
      In req (requests (log (SendEvents c indexName events w))) ->
      Header_Get (Header req) "Authorization" = "Splunk " +:+ Token c) /\
  "Bearer " +:+ Token c <> "Splunk " +:+ Token c.
Proof.
  intros Ht. repeat split.
  - intros q options w req Hin.
    apply Pkg_Search_sent in Hin as (req0 & Ha & _).
    rewrite setAuthHeader_token in Ha by assumption.
    injection Ha as <-. apply bearer_header.
  - intros q w req Hin.
    apply Internal_Search_sent in Hin as (req0 & Ha & _).
    rewrite setAuthHeader_token in Ha by assumption.
    injection Ha as <-. apply bearer_header.
  - intros indexName events w req. apply SendEvents_authorization.
  - discriminate.
Qed.

(** *** The body of a search *)

(** One iteration of the option loop, by the cut of the option. *)
Lemma applyOption_cut (o : Pkg.SearchOpts) (opt : string) :
  Pkg.applyOption o opt =
  match strings_Cut opt "=" with
  | None => o
  | Some (key, value) =>
      if (key =? "exec_mode")%string
      then Pkg.mkOpts value (Pkg.earliestTime o) (Pkg.latestTime o)
      else if (key =? "earliest_time")%string
      then Pkg.mkOpts (Pkg.execMode o) value (Pkg.latestTime o)
      else if (key =? "latest_time")%string
      then Pkg.mkOpts (Pkg.execMode o) (Pkg.earliestTime o) value
      else o
  end.
Proof.
  unfold Pkg.applyOption. cbn [strings_SplitN].
  destruct (strings_Cut opt "=") as [[k v]|]; reflexivity.
Qed.

(** An option without '=' leaves the three settings as they are. *)
Lemma applyOption_malformed (o : Pkg.SearchOpts) (opt : string) :
  occurs "=" opt = false -> Pkg.applyOption o opt = o.
Proof.
  intros H. rewrite applyOption_cut. now rewrite (Cut_absent _ _ H).
Qed.

(** The loop computes, for each recognized key, the value of the last
    option that assigns it. *)
Lemma fold_execMode (options : list string) (o : Pkg.SearchOpts) :
  Pkg.execMode (fold_left Pkg.applyOption options o) =
  default (Pkg.execMode o) (last_assignment "exec_mode" options).
Proof.
  revert o. induction options as [|opt rest IH]; intros o; [reflexivity|].
  cbn [fold_left last_assignment]. rewrite IH.
  destruct (last_assignment "exec_mode" rest); [reflexivity|].
  rewrite applyOption_cut.
  destruct (strings_Cut opt "=") as [[k v]|]; [|reflexivity].
  destruct (String.eqb_spec k "exec_mode"); [reflexivity|].
  destruct (k =? "earliest_time")%string; [reflexivity|].
  destruct (k =? "latest_time")%string; reflexivity.
Qed.

Lemma fold_earliestTime (options : list string) (o : Pkg.SearchOpts) :
  Pkg.earliestTime (fold_left Pkg.applyOption options o) =
  default (Pkg.earliestTime o) (last_assignment "earliest_time" options).
Proof.
  revert o. induction options as [|opt rest IH]; intros o; [reflexivity|].
  cbn [fold_left last_assignment]. rewrite IH.
  destruct (last_assignment "earliest_time" rest); [reflexivity|].
  rewrite applyOption_cut.
  destruct (strings_Cut opt "=") as [[k v]|]; [|reflexivity].
  destruct (String.eqb_spec k "earliest_time") as [->|Hk]; [reflexivity|].
  destruct (k =? "exec_mode")%string; [reflexivity|].
  cbn [default]. destruct (k =? "latest_time")%string; reflexivity.
Qed.

Lemma fold_latestTime (options : list string) (o : Pkg.SearchOpts) :
  Pkg.latestTime (fold_left Pkg.applyOption options o) =
  default (Pkg.latestTime o) (last_assignment "latest_time" options).
Proof.
  revert o. induction options as [|opt rest IH]; intros o; [reflexivity|].
  cbn [fold_left last_assignment]. rewrite IH.
  destruct (last_assignment "latest_time" rest); [reflexivity|].
  rewrite applyOption_cut.
  destruct (strings_Cut opt "=") as [[k v]|]; [|reflexivity].
  destruct (String.eqb_spec k "latest_time") as [->|Hk]; [reflexivity|].
  destruct (k =? "exec_mode")%string; [reflexivity|].
  destruct (k =? "earliest_time")%string; reflexivity.
Qed.

(** Removing a malformed option changes nothing. *)
Lemma parseOptions_malformed (pre post : list string) (opt : string) :
  occurs "=" opt = false ->
  Pkg.parseOptions (pre ++ opt :: post) = Pkg.parseOptions (pre ++ post).
Proof.
  intros H. unfold Pkg.parseOptions.
  rewrite !fold_left_app. cbn [fold_left].
  now rewrite applyOption_malformed.
Qed.

(** The body, written out. *)
Lemma reqBody_shape (q : string) (options : list string) :
  let o := Pkg.parseOptions options in
  Pkg.reqBody q options =
  "search=" +:+ q +:+ "&exec_mode=" +:+ Pkg.execMode o +:+ "&output_mode=json"
  +:+ (if (Pkg.earliestTime o =? "")%string then ""
       else "&earliest_time=" +:+ Pkg.earliestTime o)
  +:+ (if (Pkg.latestTime o =? "")%string then ""
       else "&latest_time=" +:+ Pkg.latestTime o).
Proof.
  cbn zeta. unfold Pkg.reqBody, Pkg.searchParams, strings_Join.
  generalize (Pkg.parseOptions options). intros o.
  destruct (Pkg.earliestTime o =? "")%string;
    destruct (Pkg.latestTime o =? "")%string;
    cbn [negb app String.concat];
    rewrite ?string_app_assoc, ?string_app_nil_r; reflexivity.
Qed.

Lemma SplitN_first (a : ascii) (k v : string) (n : nat) :
  occurs a k = false ->
  strings_SplitN (k +:+ String a v) (String a EmptyString) (S (S n)) =
  k :: strings_SplitN v (String a EmptyString) (S n).
Proof. intros H. cbn [strings_SplitN]. now rewrite Cut_first. Qed.

Lemma SplitN_absent (s sep : string) (n : nat) :
  strings_Cut s sep = None -> strings_SplitN s sep (S n) = [s].
Proof. intros H. destruct n; cbn [strings_SplitN]; [reflexivity | now rewrite H]. Qed.

(** The fields of the default body when the query holds no '&'. *)
Lemma form_fields_default (q : string) :
  occurs "&" q = false ->
  form_fields ("search=" +:+ q +:+ "&exec_mode=normal&output_mode=json") =
  [("search", q); ("exec_mode", "normal"); ("output_mode", "json")].
Proof.
  intros Hq. unfold form_fields, strings_Split.
  change ("search=" +:+ q +:+ "&exec_mode=normal&output_mode=json")
    with (String "s" (String "e" (String "a" (String "r" (String "c"
           (String "h" (String "=" (q +:+ "&exec_mode=normal&output_mode=json")))))))).
  cbn [String.length].
  change (String "s" (String "e" (String "a" (String "r" (String "c"
           (String "h" (String "=" (q +:+ "&exec_mode=normal&output_mode=json"))))))))
    with (("search=" +:+ q) +:+ String "&" "exec_mode=normal&output_mode=json").
  rewrite SplitN_first by exact Hq.
  change "exec_mode=normal&output_mode=json"
    with ("exec_mode=normal" +:+ String "&" "output_mode=json").
  rewrite SplitN_first by reflexivity.
  rewrite SplitN_absent by reflexivity.
  cbn [map].
  change ("search=" +:+ q) with ("search" +:+ String "=" q).
  rewrite Cut_first by reflexivity. reflexivity.
Qed.

(** The body of whatever a search sends is the formatted body. *)
Lemma Pkg_Search_body (c : Client) (q : string) (options : list string)
  (w : World) (req : http_Request) :
  In req (requests (log (Pkg.Search c q options w))) ->
  Body req = Pkg.reqBody q options.
Proof.
  intros Hin. apply Pkg_Search_sent in Hin as (req0 & Ha & <-).
  now apply setAuthHeader_frame in Ha as (_ & _ & ?).
Qed.

Lemma Internal_Search_body (c : Client) (q : string) (w : World)
  (req : http_Request) :
  In req (requests (log (Internal.Search c q w))) ->
  Body req = Internal.reqBody q.
Proof.
  intros Hin. apply Internal_Search_sent in Hin as (req0 & Ha & <-).
  now apply setAuthHeader_frame in Ha as (_ & _ & ?).
Qed.

Local Ltac in_list := cbn; repeat ((left; reflexivity) || right).

(** C3. [Search(q)] without options: the parameters are exactly
    search=q, exec_mode=normal and output_mode=json, none of them an
    earliest_time or latest_time parameter; the body is these three
    joined by '&', and it is the body of the request that is sent. When
    the query holds no '&', the body reads back as these three fields. *)
Theorem C3_Search_default_body (c : Client) (q : string) (w : World) :
  Pkg.searchParams q (Pkg.parseOptions []) =
    ["search=" +:+ q; "exec_mode=normal"; "output_mode=json"] /\
  Forall (fun p => String.prefix "earliest_time=" p = false /\
                   String.prefix "latest_time=" p = false)
         (Pkg.searchParams q (Pkg.parseOptions [])) /\
  Pkg.reqBody q [] = "search=" +:+ q +:+ "&exec_mode=normal&output_mode=json" /\
  (forall req, In req (requests (log (Pkg.Search c q [] w))) ->
               Body req = "search=" +:+ q +:+ "&exec_mode=normal&output_mode=json") /\
  (occurs "&" q = false ->
   form_fields (Pkg.reqBody q []) =
     [("search", q); ("exec_mode", "normal"); ("output_mode", "json")] /\
   form_values "earliest_time" (Pkg.reqBody q []) = [] /\
   form_values "latest_time" (Pkg.reqBody q []) = []).
Proof.
  assert (Hb : Pkg.reqBody q [] =
               "search=" +:+ q +:+ "&exec_mode=normal&output_mode=json").
  { rewrite reqBody_shape. reflexivity. }
  split; [reflexivity|].
  split; [repeat constructor|].
  split; [exact Hb|].
  split.
  - intros req Hin. rewrite <- Hb. now apply Pkg_Search_body in Hin.
  - intros Hq. unfold form_values. rewrite Hb, form_fields_default by exact Hq.
    repeat split.
Qed.

(** The last assignment of a recognized key reaches the body. *)
Lemma override_exec_mode (q : string) (options : list string) (v : string) :
  last_assignment "exec_mode" options = Some v ->
  In ("exec_mode=" +:+ v) (Pkg.searchParams q (Pkg.parseOptions options)) /\
  strings_Contains (Pkg.reqBody q options) ("exec_mode=" +:+ v) = true.
Proof.
  intros Hv.
  assert (He : Pkg.execMode (Pkg.parseOptions options) = v).
  { unfold Pkg.parseOptions. now rewrite fold_execMode, Hv. }
  split.
  - unfold Pkg.searchParams. rewrite He. in_list.
  - rewrite reqBody_shape. cbn zeta. rewrite He.
    match goal with
    | |- strings_Contains (_ +:+ _ +:+ _ +:+ _ +:+ ?r) _ = _ =>
        apply (Contains_eq _ ("search=" +:+ q +:+ "&") _ r)
    end.
    rewrite !string_app_assoc. reflexivity.
Qed.

Lemma override_earliest_time (q : string) (options : list string) (v : string) :
  last_assignment "earliest_time" options = Some v -> v <> "" ->
  In ("earliest_time=" +:+ v) (Pkg.searchParams q (Pkg.parseOptions options)) /\
  strings_Contains (Pkg.reqBody q options) ("earliest_time=" +:+ v) = true.
Proof.
  intros Hv Hne.
  assert (He : Pkg.earliestTime (Pkg.parseOptions options) = v).
  { unfold Pkg.parseOptions. now rewrite fold_earliestTime, Hv. }
  split.
  - unfold Pkg.searchParams. rewrite He.
    destruct (String.eqb_spec v ""); [contradiction|]. in_list.
  - rewrite reqBody_shape. cbn zeta. rewrite He.
    destruct (String.eqb_spec v ""); [contradiction|].
    match goal with
    | |- strings_Contains (_ +:+ _ +:+ _ +:+ ?x +:+ _ +:+ _ +:+ ?r) _ = _ =>
        apply (Contains_eq _
                 ("search=" +:+ q +:+ "&exec_mode=" +:+ x +:+ "&output_mode=json&")
                 _ r)
    end.
    rewrite !string_app_assoc. reflexivity.
Qed.

Lemma override_latest_time (q : string) (options : list string) (v : string) :
  last_assignment "latest_time" options = Some v -> v <> "" ->
  In ("latest_time=" +:+ v) (Pkg.searchParams q (Pkg.parseOptions options)) /\
  strings_Contains (Pkg.reqBody q options) ("latest_time=" +:+ v) = true.
Proof.
  intros Hv Hne.
  assert (He : Pkg.latestTime (Pkg.parseOptions options) = v).
  { unfold Pkg.parseOptions. now rewrite fold_latestTime, Hv. }
  split.
  - unfold Pkg.searchParams. rewrite He.
    destruct (String.eqb_spec v ""); [contradiction|].
    destruct (Pkg.earliestTime _ =? "")%string; in_list.
  - rewrite reqBody_shape. cbn zeta. rewrite He.
    destruct (String.eqb_spec v ""); [contradiction|].
    match goal with
    | |- strings_Contains (_ +:+ _ +:+ _ +:+ ?x +:+ _ +:+ ?y +:+ _) _ = _ =>
        apply (Contains_eq _
                 ("search=" +:+ q +:+ "&exec_mode=" +:+ x +:+ "&output_mode=json"
                  +:+ y +:+ "&")
                 _ "")
    end.
    rewrite !string_app_assoc, string_app_nil_r. reflexivity.
Qed.

(** C7 (amended). The options of [Search]. The call with
    exec_mode=blocking, earliest_time=1 and latest_time=2 has all three
    in its body. In general, for each recognized key the last option
    that assigns it decides: its exec_mode value is always in the body,
    its earliest_time or latest_time value is in the body when it is not
    empty, and an empty one adds no parameter. An option without '=' is
    ignored: the search runs exactly as without it. *)
Theorem C7_Search_options (c : Client) (q : string) (w : World) :
  Pkg.reqBody q ["exec_mode=blocking"; "earliest_time=1"; "latest_time=2"] =
    "search=" +:+ q
    +:+ "&exec_mode=blocking&output_mode=json&earliest_time=1&latest_time=2"
  /\
  (forall options key v,
      recognized key ->
      last_assignment key options = Some v ->
      key = "exec_mode" \/ v <> "" ->
      In (key +:+ "=" +:+ v) (Pkg.searchParams q (Pkg.parseOptions options)) /\
      strings_Contains (Pkg.reqBody q options) (key +:+ "=" +:+ v) = true)
  /\
  (forall options,
      (last_assignment "earliest_time" options = Some "" ->
       Forall (fun p => String.prefix "earliest_time=" p = false)
              (Pkg.searchParams q (Pkg.parseOptions options))) /\
      (last_assignment "latest_time" options = Some "" ->
       Forall (fun p => String.prefix "latest_time=" p = false)
              (Pkg.searchParams q (Pkg.parseOptions options))))
  /\
  (forall pre opt post,
      occurs "=" opt = false ->
      Pkg.reqBody q (pre ++ opt :: post) = Pkg.reqBody q (pre ++ post) /\
      Pkg.Search c q (pre ++ opt :: post) w = Pkg.Search c q (pre ++ post) w).
Proof.
  split; [|split; [|split]].
  - rewrite reqBody_shape. reflexivity.
  - intros options key v [-> | [-> | ->]] Hv Hne.
    + apply override_exec_mode, Hv.
    + destruct Hne as [Hne|Hne]; [discriminate|].
      now apply override_earliest_time.
    + destruct Hne as [Hne|Hne]; [discriminate|].
      now apply override_latest_time.
  - intros options. split; intros Hv.
    + assert (He : Pkg.earliestTime (Pkg.parseOptions options) = "").
      { unfold Pkg.parseOptions. now rewrite fold_earliestTime, Hv. }
      unfold Pkg.searchParams. rewrite He. cbn [String.eqb negb app].
      destruct (negb _); repeat (apply List.Forall_cons; [reflexivity|]);
        apply List.Forall_nil.
    + assert (He : Pkg.latestTime (Pkg.parseOptions options) = "").
      { unfold Pkg.parseOptions. now rewrite fold_latestTime, Hv. }
      unfold Pkg.searchParams. rewrite He. cbn [String.eqb negb app].
      destruct (negb _); repeat (apply List.Forall_cons; [reflexivity|]);
        apply List.Forall_nil.
  - intros pre opt post Hopt.
    assert (Hb : Pkg.reqBody q (pre ++ opt :: post) = Pkg.reqBody q (pre ++ post)).
    { unfold Pkg.reqBody. now rewrite parseOptions_malformed. }
    split; [exact Hb|].
    unfold Pkg.Search, Pkg.searchRequest. now rewrite Hb.
Qed.

(** C10. The query goes into the body as it is, right after "search=":
    nothing is escaped. So a query with an '&' adds fields of its own
    to the form: with no option given, the query "x&earliest_time=0"
    yields a body that carries an earliest_time field, and the query
    "x&exec_mode=blocking" one whose first exec_mode is the injected
    one; the same holds for [prepareHttpRequest]. *)
Theorem C10_query_inserted_verbatim (c : Client) (w : World) :
  (forall q options, exists rest,
      Pkg.reqBody q options = "search=" +:+ q +:+ "&exec_mode=" +:+ rest) /\
  (forall q, Internal.reqBody q =
             "search=" +:+ q +:+ "&exec_mode=oneshot&output_mode=json") /\
  (forall q options req,
      In req (requests (log (Pkg.Search c q options w))) ->
      Body req = Pkg.reqBody q options) /\
  (forall q req,
      In req (requests (log (Internal.Search c q w))) ->
      Body req = Internal.reqBody q) /\
  (exists q,
      form_fields (Pkg.reqBody q []) =
        [("search", "x"); ("earliest_time", "0");
         ("exec_mode", "normal"); ("output_mode", "json")] /\
      form_values "earliest_time" (Pkg.reqBody q []) = ["0"]) /\
  (exists q,
      form_values "exec_mode" (Pkg.reqBody q []) = ["blocking"; "normal"]) /\
  (exists q,
      form_values "exec_mode" (Internal.reqBody q) = ["blocking"; "oneshot"]).
Proof.
  split; [|split; [|split; [|split; [|split; [|split]]]]].
  - intros q options. rewrite reqBody_shape. cbn zeta. eauto.
  - reflexivity.
  - intros q options req. apply Pkg_Search_body.
  - intros q req. apply Internal_Search_body.
  - exists "x&earliest_time=0". split; vm_compute; reflexivity.
  - exists "x&exec_mode=blocking". vm_compute; reflexivity.
  - exists "x&exec_mode=blocking". vm_compute; reflexivity.
Qed.

End Properties.

(** * Further properties of the code *)

(** ** Base64 and basic authentication *)

Lemma byte_values_complete (n : N) : (n < 256)%N -> In n byte_values.
Proof.
  intros H. unfold byte_values. apply in_map_iff.
  exists (N.to_nat n). split; [apply N2Nat.id|].
  apply in_seq. lia.
Qed.

Lemma digit_values_complete (n : N) : (n < 64)%N -> In n digit_values.
Proof.
  intros H. unfold digit_values. apply in_map_iff.
  exists (N.to_nat n). split; [apply N2Nat.id|].
  apply in_seq. lia.
Qed.

Lemma N_of_ascii_byte (a : ascii) : (N_of_ascii a < 256)%N.
Proof. destruct a as [[] [] [] [] [] [] [] []]; reflexivity. Qed.

Lemma digit_checked (d : N) : (d < 64)%N -> digit_check d = true.
Proof.
  intros H. apply digit_values_complete in H.
  assert (Hall : forallb digit_check digit_values = true) by (vm_compute; reflexivity).
  rewrite List.forallb_forall in Hall. now apply Hall.
Qed.

Lemma head_checked (a b : N) : (a < 256)%N -> (b < 256)%N -> head_check a b = true.
Proof.
  intros Ha Hb. apply byte_values_complete in Ha, Hb.
  assert (Hall : forallb (fun x => forallb (head_check x) byte_values) byte_values = true)
    by (vm_compute; reflexivity).
  rewrite List.forallb_forall in Hall. specialize (Hall a Ha).
  rewrite List.forallb_forall in Hall. now apply Hall.
Qed.

Lemma tail_checked (b c : N) : (b < 256)%N -> (c < 256)%N -> tail_check b c = true.
Proof.
  intros Hb Hc. apply byte_values_complete in Hb, Hc.
  assert (Hall : forallb (fun x => forallb (tail_check x) byte_values) byte_values = true)
    by (vm_compute; reflexivity).
  rewrite List.forallb_forall in Hall. specialize (Hall b Hb).
  rewrite List.forallb_forall in Hall. now apply Hall.
Qed.

Lemma digit_value (d : N) :
  (d < 64)%N ->
  base64_value (base64_digit d) = Some d /\
  is_pad (base64_digit d) = false /\
  is_newline (base64_digit d) = false.
Proof.
  intros H. apply digit_checked in H. unfold digit_check in H.
  apply andb_prop in H as [H Hn]. apply andb_prop in H as [Hv Hp].
  apply negb_true_iff in Hn, Hp. repeat split; try assumption.
  destruct (base64_value (base64_digit d)) as [v|]; [|discriminate].
  apply N.eqb_eq in Hv. now subst.
Qed.

Lemma head_facts (a b : N) :
  (a < 256)%N -> (b < 256)%N ->
  (N.shiftr a 2 < 64)%N /\ (digit1 a b < 64)%N /\
  (N.shiftl (N.land a 3) 4 < 64)%N /\
  (N.shiftl (N.land b 15) 2 < 64)%N /\
  N.lor (N.shiftl (N.shiftr a 2) 2) (N.shiftr (digit1 a b) 4) = a /\
  N.lor (N.shiftl (N.shiftr a 2) 2) (N.shiftr (N.shiftl (N.land a 3) 4) 4) = a /\
  N.land (digit1 a b) 15 = N.shiftr b 4 /\
  N.lor (N.shiftl (N.shiftr b 4) 4) (N.shiftr (N.shiftl (N.land b 15) 2) 2) = b.
Proof.
  intros Ha Hb. pose proof (head_checked a b Ha Hb) as H. unfold head_check in H.
  repeat (apply andb_prop in H as [H ?]).
  repeat match goal with
         | X : (_ <? _)%N = true |- _ => apply N.ltb_lt in X
         | X : (_ =? _)%N = true |- _ => apply N.eqb_eq in X
         end.
  repeat split; assumption.
Qed.

Lemma tail_facts (b c : N) :
  (b < 256)%N -> (c < 256)%N ->
  (digit2 b c < 64)%N /\ (N.land c 63 < 64)%N /\
  N.shiftr (digit2 b c) 2 = N.land b 15 /\
  N.lor (N.shiftl (N.shiftr b 4) 4) (N.land b 15) = b /\
  N.lor (N.shiftl (N.land (digit2 b c) 3) 6) (N.land c 63) = c.
Proof.
  intros Hb Hc. pose proof (tail_checked b c Hb Hc) as H. unfold tail_check in H.
  repeat (apply andb_prop in H as [H ?]).
  repeat match goal with
         | X : (_ <? _)%N = true |- _ => apply N.ltb_lt in X
         | X : (_ =? _)%N = true |- _ => apply N.eqb_eq in X
         end.
  repeat split; assumption.
Qed.

(** Induction three elements at a time. *)
Lemma list_ind3 {A} (P : list A -> Prop) :
  P [] -> (forall a, P [a]) -> (forall a b, P [a; b]) ->
  (forall a b c l, P l -> P (a :: b :: c :: l)) ->
  forall l, P l.
Proof.
  intros H0 H1 H2 H3.
  assert (H : forall l, P l /\ (forall a, P (a :: l)) /\ (forall a b, P (a :: b :: l))).
  { induction l as [|x l (IH0 & IH1 & IH2)]; [auto|].
    split; [apply IH1|]. split; [intros a; apply IH2|].
    intros a b. now apply H3. }
  intros l. apply H.
Qed.

(** Decoding what the encoder wrote gives the bytes back. *)
Lemma decode_encode_bytes (l : list N) :
  Forall (fun n => (n < 256)%N) l ->
  base64_decode_chars (list_ascii_of_string (base64_encode_bytes l)) = Some l.
Proof.
  induction l as [|a|a b|a b c l IH] using list_ind3; intros Hl.
  - reflexivity.
  - apply Forall_cons_1 in Hl as [Ha _].
    destruct (head_facts a 0 Ha ltac:(reflexivity)) as (H0 & _ & H1 & _ & _ & Hb0 & _).
    destruct (digit_value _ H0) as (V0 & _ & _).
    destruct (digit_value _ H1) as (V1 & _ & _).
    cbn [base64_encode_bytes list_ascii_of_string base64_decode_chars].
    rewrite V0, V1. cbn. now rewrite Hb0.
  - apply Forall_cons_1 in Hl as [Ha Hl]. apply Forall_cons_1 in Hl as [Hb _].
    destruct (head_facts a b Ha Hb) as (H0 & H1 & _ & H2 & Hb0 & _ & Hd1 & Hb1).
    destruct (digit_value _ H0) as (V0 & _ & _).
    destruct (digit_value _ H1) as (V1 & _ & _).
    destruct (digit_value _ H2) as (V2 & P2 & _).
    cbn [base64_encode_bytes list_ascii_of_string base64_decode_chars].
    fold (digit1 a b). rewrite V0, V1, P2, V2. cbn.
    now rewrite Hb0, Hd1, Hb1.
  - apply Forall_cons_1 in Hl as [Ha Hl]. apply Forall_cons_1 in Hl as [Hb Hl].
    apply Forall_cons_1 in Hl as [Hc Hl].
    destruct (head_facts a b Ha Hb) as (H0 & H1 & _ & _ & Hb0 & _ & Hd1 & _).
    destruct (tail_facts b c Hb Hc) as (H2 & H3 & Hd2 & Hb1 & Hb2).
    destruct (digit_value _ H0) as (V0 & _ & _).
    destruct (digit_value _ H1) as (V1 & _ & _).
    destruct (digit_value _ H2) as (V2 & P2 & _).
    destruct (digit_value _ H3) as (V3 & P3 & _).
    cbn [base64_encode_bytes list_ascii_of_string base64_decode_chars].
    fold (digit1 a b) (digit2 b c).
    rewrite V0, V1, P2, V2, P3, V3, (IH Hl).
    cbv zeta. now rewrite Hb0, Hd1, Hd2, Hb1, Hb2.
Qed.

(** The encoder writes no carriage return and no line feed. *)
Lemma encode_no_newline (l : list N) :
  Forall (fun n => (n < 256)%N) l ->
  List.filter (fun a => negb (is_newline a))
    (list_ascii_of_string (base64_encode_bytes l)) =
  list_ascii_of_string (base64_encode_bytes l).
Proof.
  induction l as [|a|a b|a b c l IH] using list_ind3; intros Hl.
  - reflexivity.
  - apply Forall_cons_1 in Hl as [Ha _].
    destruct (head_facts a 0 Ha ltac:(reflexivity)) as (H0 & _ & H1 & _).
    destruct (digit_value _ H0) as (_ & _ & N0).
    destruct (digit_value _ H1) as (_ & _ & N1).
    cbn [base64_encode_bytes list_ascii_of_string List.filter].
    now rewrite N0, N1.
  - apply Forall_cons_1 in Hl as [Ha Hl]. apply Forall_cons_1 in Hl as [Hb _].
    destruct (head_facts a b Ha Hb) as (H0 & H1 & _ & H2 & _).
    destruct (digit_value _ H0) as (_ & _ & N0).
    destruct (digit_value _ H1) as (_ & _ & N1).
    destruct (digit_value _ H2) as (_ & _ & N2).
    cbn [base64_encode_bytes list_ascii_of_string List.filter].
    fold (digit1 a b). now rewrite N0, N1, N2.
  - apply Forall_cons_1 in Hl as [Ha Hl]. apply Forall_cons_1 in Hl as [Hb Hl].
    apply Forall_cons_1 in Hl as [Hc Hl].
    destruct (head_facts a b Ha Hb) as (H0 & H1 & _).
    destruct (tail_facts b c Hb Hc) as (H2 & H3 & _).
    destruct (digit_value _ H0) as (_ & _ & N0).
    destruct (digit_value _ H1) as (_ & _ & N1).
    destruct (digit_value _ H2) as (_ & _ & N2).
    destruct (digit_value _ H3) as (_ & _ & N3).
    cbn [base64_encode_bytes list_ascii_of_string List.filter].
    fold (digit1 a b) (digit2 b c).
    rewrite N0, N1, N2, N3. cbn [negb]. now rewrite (IH Hl).
Qed.

(** Base64 round trip: [DecodeString(EncodeToString(s)) = s]. *)
Lemma base64_round_trip (s : string) :
  base64_DecodeString (base64_EncodeToString s) = Some s.
Proof.
  unfold base64_DecodeString, base64_EncodeToString.
  assert (Hb : Forall (fun n => (n < 256)%N) (map N_of_ascii (list_ascii_of_string s))).
  { apply List.Forall_forall. intros n Hn. apply in_map_iff in Hn as (a & <- & _).
    apply N_of_ascii_byte. }
  rewrite encode_no_newline, decode_encode_bytes by exact Hb.
  clear Hb. rewrite map_map. f_equal.
  rewrite <- (string_of_list_ascii_of_string s) at 2. f_equal.
  induction (list_ascii_of_string s) as [|a l IH]; [reflexivity|].
  cbn [map]. now rewrite ascii_N_embedding, IH.
Qed.

(** What [BasicAuth] reads from a request prepared by [SetBasicAuth]:
    the text "username:password", cut at its first colon. *)
Lemma BasicAuth_SetBasicAuth (req : http_Request) (username password : string) :
  Request_BasicAuth (SetBasicAuth req username password)
  = strings_Cut (username +:+ ":" +:+ password) ":".
Proof.
  unfold Request_BasicAuth, SetBasicAuth. cbn [Header req_Header_Set].
  rewrite Header_Get_Set.
  set (enc := base64_EncodeToString (username +:+ ":" +:+ password)).
  change ("Basic " +:+ enc)
    with (String "B" (String "a" (String "s" (String "i" (String "c" (String " " enc)))))).
  cbn [String.eqb]. unfold parseBasicAuth.
  assert (Hp : String.prefix "basic "
                 (string_lower (String "B" (String "a" (String "s" (String "i"
                    (String "c" (String " " enc))))))) = true)
    by (destruct enc; reflexivity).
  rewrite Hp. cbn [String.length Nat.sub String.substring].
  rewrite Nat.sub_0_r, substring_all. unfold enc. now rewrite base64_round_trip.
Qed.

(** The request of a client with a token carries no basic credentials. *)
Lemma BasicAuth_Bearer (req : http_Request) (token : string) :
  Request_BasicAuth (req_Header_Set req "Authorization" ("Bearer " +:+ token)) = None.
Proof.
  unfold Request_BasicAuth. cbn [Header req_Header_Set]. rewrite Header_Get_Set.
  reflexivity.
Qed.

Section Coverage.
Context `{RT : Runtime}.

(** ** Searching: the answer of the server *)

(** A search whose request is answered with status 200 returns what the
    JSON decoder makes of the body, a decoding error included; the
    decoder runs once, on that body. *)
Theorem Search_200_returns_decoded (c : Client) (q : string)
  (options : list string) (w w' : World) (req : http_Request)
  (resp : http_Response) :
  http_Client_Do (HTTPClient c) req w = (Ok resp, w') ->
  StatusCode resp = 200 ->
  (requests (log (Pkg.Search c q options w)) = [req] ->
   value (Pkg.Search c q options w) = json_Decode (RespBody resp) /\
   decoded (log (Pkg.Search c q options w)) = [RespBody resp] /\
   final (Pkg.Search c q options w) = w')
  /\
  (requests (log (Internal.Search c q w)) = [req] ->
   value (Internal.Search c q w) = json_Decode (RespBody resp) /\
   decoded (log (Internal.Search c q w)) = [RespBody resp] /\
   final (Internal.Search c q w) = w').
Proof.
  intros Hd Hs. apply Z.eqb_eq in Hs. split.
  - rewrite Pkg_Search_requests. unfold Pkg.Search.
    destruct (Pkg.searchRequest c q options) as [r|]; [|discriminate].
    intros [= ->]. rewrite doSearch_run, Hd, Hs. repeat split.
  - rewrite Internal_Search_requests. unfold Internal.Search.
    destruct (Internal.prepareHttpRequest c q) as [r|]; [|discriminate].
    intros [= ->]. rewrite doSearch_run, Hd, Hs. repeat split.
Qed.

(** A search whose exchange fails returns the error of the HTTP client
    as it is, without a prefix of its own, and decodes nothing. *)
Theorem Search_transport_error_unwrapped (c : Client) (q : string)
  (options : list string) (w w' : World) (req : http_Request) (m : error) :
  http_Client_Do (HTTPClient c) req w = (Err m, w') ->
  (requests (log (Pkg.Search c q options w)) = [req] ->
   value (Pkg.Search c q options w) = Err m /\
   decoded (log (Pkg.Search c q options w)) = [] /\
   final (Pkg.Search c q options w) = w')
  /\
  (requests (log (Internal.Search c q w)) = [req] ->
   value (Internal.Search c q w) = Err m /\
   decoded (log (Internal.Search c q w)) = [] /\
   final (Internal.Search c q w) = w').
Proof.
  intros Hd. split.
  - rewrite Pkg_Search_requests. unfold Pkg.Search.
    destruct (Pkg.searchRequest c q options) as [r|]; [|discriminate].
    intros [= ->]. rewrite doSearch_run, Hd. repeat split.
  - rewrite Internal_Search_requests. unfold Internal.Search.
    destruct (Internal.prepareHttpRequest c q) as [r|]; [|discriminate].
    intros [= ->]. rewrite doSearch_run, Hd. repeat split.
Qed.

Lemma doSearch_bounds (c : Client) (req : http_Request) (w : World) :
  marshalled (log (doSearch c req w)) = [] /\
  (length (decoded (log (doSearch c req w))) <= 1)%nat /\
  (decoded (log (doSearch c req w)) <> [] ->
   exists resp, http_Client_Do (HTTPClient c) req w
                = (Ok resp, final (doSearch c req w)) /\
                StatusCode resp = 200).
Proof.
  rewrite doSearch_run.
  destruct (http_Client_Do (HTTPClient c) req w) as [[resp|m] w'] eqn:Hd;
    [destruct (Z.eqb_spec (StatusCode resp) 200)|]; cbn;
    repeat split; try lia; try congruence.
  intros _. eauto.
Qed.

(** A search makes at most one exchange and never retries: it hands at
    most one request to the HTTP client, decodes at most one body, and
    only after an exchange; it serializes nothing; and when it sends
    nothing it leaves the world as it found it. *)
Theorem Search_at_most_one_exchange (c : Client) (q : string)
  (options : list string) (w : World) :
  ((length (requests (log (Pkg.Search c q options w))) <= 1)%nat /\
   (length (decoded (log (Pkg.Search c q options w)))
    <= length (requests (log (Pkg.Search c q options w))))%nat /\
   marshalled (log (Pkg.Search c q options w)) = [] /\
   (requests (log (Pkg.Search c q options w)) = [] ->
    log (Pkg.Search c q options w) = [] /\
    final (Pkg.Search c q options w) = w /\
    exists e, value (Pkg.Search c q options w) = Err e))
  /\
  ((length (requests (log (Internal.Search c q w))) <= 1)%nat /\
   (length (decoded (log (Internal.Search c q w)))
    <= length (requests (log (Internal.Search c q w))))%nat /\
   marshalled (log (Internal.Search c q w)) = [] /\
   (requests (log (Internal.Search c q w)) = [] ->
    log (Internal.Search c q w) = [] /\
    final (Internal.Search c q w) = w /\
    exists e, value (Internal.Search c q w) = Err e)).
Proof.
  split.
  - rewrite Pkg_Search_requests. unfold Pkg.Search.
    destruct (Pkg.searchRequest c q options) as [r|e].
    + destruct (doSearch_bounds c r w) as (Hm & Hd & _).
      repeat split; cbn [length]; try lia; try assumption; discriminate.
    + cbn. repeat split; try lia. eauto.
  - rewrite Internal_Search_requests. unfold Internal.Search.
    destruct (Internal.prepareHttpRequest c q) as [r|e].
    + destruct (doSearch_bounds c r w) as (Hm & Hd & _).
      repeat split; cbn [length]; try lia; try assumption; discriminate.
    + cbn. repeat split; try lia. eauto.
Qed.

(** ** Searching: the request *)

Lemma search_headers (c : Client) (req0 req : http_Request) :
  setAuthHeader c req0 = Ok req ->
  Header req0 = <["Content-Type" := ["application/x-www-form-urlencoded"]]> ∅ ->
  Header_Get (Header req) "Content-Type" = "application/x-www-form-urlencoded" /\
  dom (Header req) = ({[ "Content-Type"; "Authorization" ]} : gset string).
Proof.
  unfold setAuthHeader.
  destruct (negb (Token c =? "")%string);
    [|destruct (negb (Username c =? "")%string && negb (Password c =? "")%string)];
    intros [= <-] Hh; unfold SetBasicAuth; cbn [Header req_Header_Set];
    rewrite Hh; unfold Header_Get, Header_Set; split;
    try (rewrite lookup_insert_ne by discriminate;
         now rewrite lookup_insert_eq);
    rewrite !dom_insert_L, dom_empty_L; set_solver.
Qed.

Lemma Pkg_Search_shaped (c : Client) (q : string) (options : list string)
  (w : World) :
  Forall (fun req =>
            Method req = "POST" /\
            URL req = BaseURL c +:+ "/services/search/jobs" /\
            Body req = Pkg.reqBody q options /\
            Header_Get (Header req) "Content-Type"
              = "application/x-www-form-urlencoded" /\
            dom (Header req) = ({[ "Content-Type"; "Authorization" ]} : gset string))
         (requests (log (Pkg.Search c q options w))).
Proof.
  rewrite Pkg_Search_requests.
  destruct (Pkg.searchRequest c q options) as [r|] eqn:Hr; [|apply List.Forall_nil].
  apply List.Forall_cons; [|apply List.Forall_nil].
  unfold Pkg.searchRequest, http_NewRequest in Hr.
  destruct (url_Parse _); [discriminate|].
  destruct (setAuthHeader c _) as [r'|] eqn:Ha; [|discriminate].
  injection Hr as <-.
  destruct (setAuthHeader_frame _ _ _ Ha) as (-> & -> & ->).
  destruct (search_headers _ _ _ Ha eq_refl) as (? & ?).
  repeat split; assumption.
Qed.

Lemma Internal_Search_shaped (c : Client) (q : string) (w : World) :
  Forall (fun req =>
            Method req = "POST" /\
            URL req = BaseURL c +:+ "/services/search/jobs" /\
            Body req = Internal.reqBody q /\
            Header_Get (Header req) "Content-Type"
              = "application/x-www-form-urlencoded" /\
            dom (Header req) = ({[ "Content-Type"; "Authorization" ]} : gset string))
         (requests (log (Internal.Search c q w))).
Proof.
  rewrite Internal_Search_requests.
  destruct (Internal.prepareHttpRequest c q) as [r|] eqn:Hr; [|apply List.Forall_nil].
  apply List.Forall_cons; [|apply List.Forall_nil].
  unfold Internal.prepareHttpRequest, http_NewRequest in Hr.
  destruct (url_Parse _); [discriminate|].
  destruct (setAuthHeader c _) as [r'|] eqn:Ha; [|discriminate].
  injection Hr as <-.
  destruct (setAuthHeader_frame _ _ _ Ha) as (-> & -> & ->).
  destruct (search_headers _ _ _ Ha eq_refl) as (? & ?).
  repeat split; assumption.
Qed.

(** Whatever a search sends is a POST to the base URL followed by
    "/services/search/jobs", the base URL being taken as it is; it has
    the form content type, the formatted body, and no header besides
    Content-Type and Authorization. *)
Theorem Search_request_shape (c : Client) (q : string) (options : list string)
  (w : World) :
  Forall (fun req =>
            Method req = "POST" /\
            URL req = BaseURL c +:+ "/services/search/jobs" /\
            Body req = Pkg.reqBody q options /\
            Header_Get (Header req) "Content-Type"
              = "application/x-www-form-urlencoded" /\
            dom (Header req) = ({[ "Content-Type"; "Authorization" ]} : gset string))
         (requests (log (Pkg.Search c q options w)))
  /\
  Forall (fun req =>
            Method req = "POST" /\
            URL req = BaseURL c +:+ "/services/search/jobs" /\
            Body req = Internal.reqBody q /\
            Header_Get (Header req) "Content-Type"
              = "application/x-www-form-urlencoded" /\
            dom (Header req) = ({[ "Content-Type"; "Authorization" ]} : gset string))
         (requests (log (Internal.Search c q w))).
Proof.
  split.
  - exact (Pkg_Search_shaped c q options w).
  - exact (Internal_Search_shaped c q w).
Qed.

(** The variadic [Search] called with the single option
    exec_mode=oneshot is the one-argument [Search] of the older copy:
    same request, same effects, same result. *)
Theorem Search_oneshot_is_Internal_Search (c : Client) (q : string) (w : World) :
  Pkg.Search c q ["exec_mode=oneshot"] w = Internal.Search c q w.
Proof.
  unfold Pkg.Search, Internal.Search, Pkg.searchRequest, Internal.prepareHttpRequest.
  assert (Hb : Pkg.reqBody q ["exec_mode=oneshot"] = Internal.reqBody q).
  { rewrite reqBody_shape. reflexivity. }
  now rewrite Hb.
Qed.

(** ** Searching: the options *)

Lemma applyOption_unrecognized (o : Pkg.SearchOpts) (opt : string) :
  (forall key, recognized key -> option_key opt <> Some key) ->
  Pkg.applyOption o opt = o.
Proof.
  intros H. rewrite applyOption_cut. unfold option_key in H.
  destruct (strings_Cut opt "=") as [[k v]|]; [|reflexivity].
  destruct (String.eqb_spec k "exec_mode") as [->|_].
  { exfalso. apply (H "exec_mode"); [left|]; reflexivity. }
  destruct (String.eqb_spec k "earliest_time") as [->|_].
  { exfalso. apply (H "earliest_time"); [right; left|]; reflexivity. }
  destruct (String.eqb_spec k "latest_time") as [->|_]; [|reflexivity].
  exfalso. apply (H "latest_time"); [right; right|]; reflexivity.
Qed.

(** An option that assigns none of the three recognized keys, be it
    malformed or for another key such as output_mode, changes nothing:
    the search runs exactly as without it. *)
Theorem Search_ignores_other_options (c : Client) (q : string)
  (pre post : list string) (opt : string) (w : World) :
  (forall key, recognized key -> option_key opt <> Some key) ->
  Pkg.reqBody q (pre ++ opt :: post) = Pkg.reqBody q (pre ++ post) /\
  Pkg.Search c q (pre ++ opt :: post) w = Pkg.Search c q (pre ++ post) w.
Proof.
  intros H.
  assert (Hp : Pkg.parseOptions (pre ++ opt :: post) = Pkg.parseOptions (pre ++ post)).
  { unfold Pkg.parseOptions. rewrite !fold_left_app. cbn [fold_left].
    now rewrite applyOption_unrecognized. }
  assert (Hb : Pkg.reqBody q (pre ++ opt :: post) = Pkg.reqBody q (pre ++ post)).
  { unfold Pkg.reqBody. now rewrite Hp. }
  split; [exact Hb|].
  unfold Pkg.Search, Pkg.searchRequest. now rewrite Hb.
Qed.

Lemma applyOption_comm (o : Pkg.SearchOpts) (a b : string) :
  option_key a <> option_key b ->
  Pkg.applyOption (Pkg.applyOption o a) b = Pkg.applyOption (Pkg.applyOption o b) a.
Proof.
  intros H. rewrite !applyOption_cut. unfold option_key in H.
  destruct (strings_Cut a "=") as [[ka va]|]; [|reflexivity].
  destruct (strings_Cut b "=") as [[kb vb]|]; [|reflexivity].
  repeat match goal with
         | |- context [String.eqb ?k ?s] => destruct (String.eqb_spec k s)
         end;
    try reflexivity; congruence.
Qed.

(** Two neighbouring options that assign different keys can be swapped:
    the order of the options matters only among those of one key. *)
Theorem Search_options_commute (c : Client) (q : string)
  (pre post : list string) (a b : string) (w : World) :
  option_key a <> option_key b ->
  Pkg.reqBody q (pre ++ a :: b :: post) = Pkg.reqBody q (pre ++ b :: a :: post) /\
  Pkg.Search c q (pre ++ a :: b :: post) w = Pkg.Search c q (pre ++ b :: a :: post) w.
Proof.
  intros H.
  assert (Hb : Pkg.reqBody q (pre ++ a :: b :: post)
               = Pkg.reqBody q (pre ++ b :: a :: post)).
  { unfold Pkg.reqBody, Pkg.parseOptions. rewrite !fold_left_app. cbn [fold_left].
    now rewrite applyOption_comm. }
  split; [exact Hb|].
  unfold Pkg.Search, Pkg.searchRequest. now rewrite Hb.
Qed.

(** An option written last for a recognized key sets that setting to
    everything after its first '=', whatever bytes that is, and leaves
    the other two settings alone; so option values are no more escaped
    than the query: one with an '&' adds a field to the form. *)
Theorem Search_last_option_verbatim (q : string) (options : list string)
  (v : string) :
  let o := Pkg.parseOptions options in
  Pkg.parseOptions (options ++ ["exec_mode=" +:+ v])
    = Pkg.mkOpts v (Pkg.earliestTime o) (Pkg.latestTime o) /\
  Pkg.parseOptions (options ++ ["earliest_time=" +:+ v])
    = Pkg.mkOpts (Pkg.execMode o) v (Pkg.latestTime o) /\
  Pkg.parseOptions (options ++ ["latest_time=" +:+ v])
    = Pkg.mkOpts (Pkg.execMode o) (Pkg.earliestTime o) v /\
  (exists rest,
      Pkg.reqBody q (options ++ ["exec_mode=" +:+ v])
      = "search=" +:+ q +:+ "&exec_mode=" +:+ v +:+ "&output_mode=json" +:+ rest) /\
  form_values "output_mode" (Pkg.reqBody "q" ["exec_mode=normal&output_mode=xml"])
    = ["xml"; "json"].
Proof.
  cbn zeta. unfold Pkg.parseOptions. rewrite !fold_left_app. cbn [fold_left].
  rewrite !applyOption_cut.
  change ("exec_mode=" +:+ v) with ("exec_mode" +:+ String "=" v).
  change ("earliest_time=" +:+ v) with ("earliest_time" +:+ String "=" v).
  change ("latest_time=" +:+ v) with ("latest_time" +:+ String "=" v).
  rewrite !Cut_first by reflexivity.
  split; [reflexivity|]. split; [reflexivity|]. split; [reflexivity|]. split.
  - rewrite reqBody_shape. cbn zeta. unfold Pkg.parseOptions.
    rewrite fold_left_app. cbn [fold_left]. rewrite applyOption_cut.
    change ("exec_mode=" +:+ v) with ("exec_mode" +:+ String "=" v).
    rewrite Cut_first by reflexivity. cbn [String.eqb Ascii.eqb Pkg.execMode].
    eexists. reflexivity.
  - vm_compute. reflexivity.
Qed.

(** ** Searching: reading the body back *)

Lemma string_length_app (a b : string) :
  String.length (a +:+ b) = (String.length a + String.length b)%nat.
Proof.
  induction a as [|x a IH]; [reflexivity|].
  change (String x a +:+ b) with (String x (a +:+ b)).
  cbn [String.length]. now rewrite IH.
Qed.

Lemma occurs_app (x : ascii) (a b : string) :
  occurs x (a +:+ b) = occurs x a || occurs x b.
Proof.
  induction a as [|y a IH]; [reflexivity|].
  change (String y a +:+ b) with (String y (a +:+ b)).
  cbn [occurs]. destruct (Ascii.eqb x y); [reflexivity | exact IH].
Qed.

(** Splitting a join gives the pieces back when no piece holds the
    separator. *)
Lemma SplitN_concat (parts : list string) (n : nat) :
  Forall (fun p => occurs "&" p = false) parts ->
  parts <> [] ->
  (length parts <= n)%nat ->
  strings_SplitN (String.concat "&" parts) "&" n = parts.
Proof.
  revert n. induction parts as [|p rest IH]; intros n HF Hne Hlen; [contradiction|].
  apply Forall_cons_1 in HF as [Hp HF].
  destruct rest as [|p2 rest'].
  - cbn [String.concat]. destruct n as [|n]; [cbn in Hlen; lia|].
    now apply SplitN_absent, Cut_absent.
  - destruct n as [|[|n]]; try (cbn in Hlen; lia).
    change (String.concat "&" (p :: p2 :: rest'))
      with (p +:+ String "&" (String.concat "&" (p2 :: rest'))).
    rewrite SplitN_first by exact Hp. f_equal.
    apply IH; [exact HF | discriminate | cbn in *; lia].
Qed.

Lemma concat_length (parts : list string) :
  parts <> [] ->
  (length parts <= S (String.length (String.concat "&" parts)))%nat.
Proof.
  induction parts as [|p rest IH]; intros Hne; [contradiction|].
  destruct rest as [|p2 rest'].
  - cbn. lia.
  - change (String.concat "&" (p :: p2 :: rest'))
      with (p +:+ String "&" (String.concat "&" (p2 :: rest'))).
    rewrite string_length_app. cbn [String.length length] in *.
    specialize (IH ltac:(discriminate)). lia.
Qed.

Lemma Split_Join (parts : list string) :
  Forall (fun p => occurs "&" p = false) parts ->
  parts <> [] ->
  strings_Split (strings_Join parts "&") "&" = parts.
Proof.
  intros HF Hne. unfold strings_Split, strings_Join.
  apply SplitN_concat; [exact HF | exact Hne | now apply concat_length].
Qed.

(** When neither the query nor the settings hold an '&', the body reads
    back as the fields [Search] meant to send, in their order, the query
    and the values being returned byte for byte. *)
Theorem Search_body_reads_back (q : string) (options : list string) :
  let o := Pkg.parseOptions options in
  occurs "&" q = false ->
  occurs "&" (Pkg.execMode o) = false ->
  occurs "&" (Pkg.earliestTime o) = false ->
  occurs "&" (Pkg.latestTime o) = false ->
  form_fields (Pkg.reqBody q options) =
    [("search", q); ("exec_mode", Pkg.execMode o); ("output_mode", "json")]
    ++ (if (Pkg.earliestTime o =? "")%string then []
        else [("earliest_time", Pkg.earliestTime o)])
    ++ (if (Pkg.latestTime o =? "")%string then []
        else [("latest_time", Pkg.latestTime o)]).
Proof.
  cbn zeta. intros Hq He Ha Hl.
  unfold form_fields, Pkg.reqBody. rewrite Split_Join.
  - unfold Pkg.searchParams. rewrite !map_app. cbn [map].
    change ("search=" +:+ q) with ("search" +:+ String "=" q).
    change ("exec_mode=" +:+ ?x) with ("exec_mode" +:+ String "=" x).
    rewrite !Cut_first by reflexivity.
    destruct (Pkg.earliestTime _ =? "")%string;
      destruct (Pkg.latestTime _ =? "")%string; cbn [negb map app];
      try change ("earliest_time=" +:+ ?x) with ("earliest_time" +:+ String "=" x);
      try change ("latest_time=" +:+ ?x) with ("latest_time" +:+ String "=" x);
      rewrite ?Cut_first by reflexivity; reflexivity.
  - unfold Pkg.searchParams.
    repeat (apply Forall_app; split);
      repeat match goal with
             | |- Forall _ (if ?b then _ else _) => destruct b
             | |- Forall _ (_ :: _) => apply List.Forall_cons
             | |- Forall _ [] => apply List.Forall_nil
             end;
      try (rewrite occurs_app; cbn; assumption); reflexivity.
  - unfold Pkg.searchParams. discriminate.
Qed.

(** ** Event ingestion: the collector URL *)

Lemma TrimRight_slash_app (s : string) :
  strings_TrimRight (s +:+ "/") "/" = strings_TrimRight s "/".
Proof.
  induction s as [|a s IH]; [reflexivity|].
  change (String a s +:+ "/") with (String a (s +:+ "/")).
  cbn [strings_TrimRight]. now rewrite IH.
Qed.

Lemma TrimRight_no_trailing_slash (s : string) :
  ends_with_slash (strings_TrimRight s "/") = false.
Proof.
  induction s as [|a s IH]; [reflexivity|].
  cbn [strings_TrimRight].
  destruct (strings_TrimRight s "/") as [|b t].
  - cbn [in_cutset]. destruct (Ascii.eqb a "/") eqn:E; [reflexivity|].
    cbn [ends_with_slash]. exact E.
  - exact IH.
Qed.

Lemma TrimRight_unchanged (s : string) :
  ends_with_slash s = false -> strings_TrimRight s "/" = s.
Proof.
  induction s as [|a s IH]; intros H; [reflexivity|].
  cbn [strings_TrimRight]. destruct s as [|b s'].
  - cbn in H. cbn. now rewrite H.
  - rewrite IH by exact H. reflexivity.
Qed.

Lemma sendEventsLoop_client (c c' : Client) (indexName hecURL : string)
  (events : list Event) (w : World) :
  Token c' = Token c -> HTTPClient c' = HTTPClient c ->
  sendEventsLoop c' indexName hecURL events w
  = sendEventsLoop c indexName hecURL events w.
Proof.
  intros Ht Hh. revert w. induction events as [|e rest IH]; intros w; [reflexivity|].
  cbn [sendEventsLoop]. unfold bind.
  assert (He : sendEvent c' indexName hecURL e w = sendEvent c indexName hecURL e w).
  { unfold sendEvent. now rewrite Ht, Hh. }
  rewrite He. destruct (value (sendEvent c indexName hecURL e w)); [reflexivity|].
  now rewrite IH.
Qed.

(** [SendEvents] strips the slashes that end the base URL before it
    appends the collector path, so a base URL written with a slash at
    its end behaves as without it, and one without is used as it is;
    [Search] appends its path to the base URL untouched, so the same
    slash shows in the search URL. *)
Theorem SendEvents_trims_trailing_slash (c : Client) (indexName : string)
  (events : list Event) (q : string) (options : list string) (w : World) :
  SendEvents (with_BaseURL c (BaseURL c +:+ "/")) indexName events w
    = SendEvents c indexName events w /\
  ends_with_slash (strings_TrimRight (BaseURL c) "/") = false /\
  (ends_with_slash (BaseURL c) = false ->
   collectorURL c = BaseURL c +:+ "/services/collector/event") /\
  Forall (fun req => URL req = BaseURL c +:+ "//services/search/jobs")
         (requests (log (Pkg.Search (with_BaseURL c (BaseURL c +:+ "/"))
                           q options w))).
Proof.
  split; [|split; [|split]].
  - unfold SendEvents, with_BaseURL. cbn [Token BaseURL].
    destruct (Token c =? "")%string; [reflexivity|].
    rewrite TrimRight_slash_app. now apply sendEventsLoop_client.
  - apply TrimRight_no_trailing_slash.
  - intros H. unfold collectorURL. now rewrite TrimRight_unchanged.
  - eapply Forall_impl;
      [exact (Pkg_Search_shaped (with_BaseURL c (BaseURL c +:+ "/")) q options w)|].
    intros req (_ & Hu & _). rewrite Hu. cbn [with_BaseURL BaseURL].
    now rewrite string_app_assoc.
Qed.

(** ** Event ingestion: composition *)

Lemma Run_eta {A} (r : Run A) : mkRun (value r) (final r) (log r) = r.
Proof. now destruct r. Qed.

Lemma sendEventsLoop_app (c : Client) (indexName hecURL : string)
  (pre post : list Event) (w : World) :
  sendEventsLoop c indexName hecURL (pre ++ post) w =
  match value (sendEventsLoop c indexName hecURL pre w) with
  | Some _ => sendEventsLoop c indexName hecURL pre w
  | None => then_run (sendEventsLoop c indexName hecURL pre w)
              (sendEventsLoop c indexName hecURL post)
  end.
Proof.
  revert w. induction pre as [|e rest IH]; intros w.
  - cbn. unfold then_run. cbn. now rewrite Run_eta.
  - cbn [app sendEventsLoop]. unfold bind.
    destruct (value (sendEvent c indexName hecURL e w)) as [err|] eqn:Hv.
    + cbn. reflexivity.
    + rewrite IH. cbn [value].
      destruct (value (sendEventsLoop c indexName hecURL rest
                         (final (sendEvent c indexName hecURL e w)))) eqn:Hr.
      * cbn [value]. now rewrite Hr.
      * unfold then_run. cbn [value final log]. now rewrite ?Hr, app_assoc.
Qed.

(** Sending [pre ++ post] is sending [pre] and, when that returned
    [nil], sending [post] from the world [pre] left: the effects add up
    in order. When [pre] fails, [post] plays no part at all. *)
Theorem SendEvents_app (c : Client) (indexName : string)
  (pre post : list Event) (w : World) :
  SendEvents c indexName (pre ++ post) w =
  match value (SendEvents c indexName pre w) with
  | Some _ => SendEvents c indexName pre w
  | None => then_run (SendEvents c indexName pre w) (SendEvents c indexName post)
  end.
Proof.
  unfold SendEvents. destruct (Token c =? "")%string eqn:Ht; [reflexivity|].
  cbv zeta. rewrite sendEventsLoop_app.
  destruct (value (sendEventsLoop c indexName _ pre w)); [reflexivity|].
  reflexivity.
Qed.

(** ** Event ingestion: outcomes *)

(** The wrapping of an event is unique. *)
Lemma wraps_unique (indexName : string) (e : Event) (p : gmap string any) :
  wraps indexName e p -> p = payload indexName e.
Proof.
  intros (Hi & Ht & He & Ho).
  destruct (payload_wraps indexName e) as (Pi & Pt & Pe & Po).
  apply map_eq. intros k.
  destruct (decide (k = "index")) as [->|Hk1]; [now rewrite Hi, Pi|].
  destruct (decide (k = "time")) as [->|Hk2]; [now rewrite Ht, Pt|].
  destruct (decide (k = "event")) as [->|Hk3]; [now rewrite He, Pe|].
  now rewrite Ho, Po.
Qed.

Lemma delivered_length (c : Client) (indexName : string) (events : list Event)
  (w w' : World) (reqs : list http_Request) :
  delivered c indexName events w reqs w' -> length reqs = length events.
Proof. induction 1; cbn; congruence. Qed.

(** When [SendEvents] returns [nil], the client has a token and every
    event of the list was POSTed, in order, one request each, and each
    was answered with status 200. *)
Theorem SendEvents_nil_means_all_delivered (c : Client) (indexName : string)
  (events : list Event) (w : World) :
  value (SendEvents c indexName events w) = None ->
  Token c <> "" /\
  delivered c indexName events w
    (requests (log (SendEvents c indexName events w)))
    (final (SendEvents c indexName events w)) /\
  length (requests (log (SendEvents c indexName events w))) = length events /\
  length (marshalled (log (SendEvents c indexName events w))) = length events.
Proof.
  unfold SendEvents.
  destruct (String.eqb_spec (Token c) "") as [Heq|Hne]; [discriminate|].
  intros Hv.
  destruct (sendEventsLoop_spec c indexName events w)
    as [(_ & Hdel & Hm) | (pre & e & post & w1 & reqs & extra & cause & _ & _ & _ & Hab & _)].
  - repeat split; try assumption.
    + now apply delivered_length in Hdel.
    + symmetry. now apply Forall2_length in Hm.
  - change (value (sendEventsLoop c indexName (collectorURL c) events w) = None) in Hv.
    rewrite Hv in Hab. inversion Hab.
Qed.

(** When the collector URL parses, every event can be serialized and
    the server answers every request with status 200, [SendEvents]
    returns [nil] after exactly one request per event. *)
Theorem SendEvents_all_accepted (c : Client) (indexName : string)
  (events : list Event) (w : World) :
  Token c <> "" ->
  url_Parse (collectorURL c) = None ->
  (forall e, In e events ->
             exists body, json_Marshal (any_map (payload indexName e)) = Ok body) ->
  (forall req w0, exists resp w1,
      http_Client_Do (HTTPClient c) req w0 = (Ok resp, w1) /\ StatusCode resp = 200) ->
  value (SendEvents c indexName events w) = None /\
  length (requests (log (SendEvents c indexName events w))) = length events /\
  Forall2 (carries c indexName) events
    (requests (log (SendEvents c indexName events w))).
Proof.
  intros Ht Hu Hm Hd.
  pose proof (sendEventsLoop_spec c indexName events w) as Hspec.
  unfold SendEvents.
  destruct (String.eqb_spec (Token c) "") as [Heq|_]; [contradiction|].
  cbv zeta.
  change (strings_TrimRight (BaseURL c) "/" +:+ "/services/collector/event")
    with (collectorURL c).
  destruct Hspec
    as [(Hv & Hdel & _) | (pre & e & post & w1 & reqs & extra & cause & He & _ & _ & Hab & _)].
  - repeat split; [exact Hv | now apply delivered_length in Hdel
                  | now apply delivered_carried in Hdel].
  - exfalso. assert (Hin : In e events) by (rewrite He; apply in_elt).
    inversion Hab as [p m Hw Hp | p body m Hw Hp Hpu | req m w' Hc Hdo | req resp w' Hc Hdo Hs].
    + apply wraps_unique in Hw as ->. destruct (Hm e Hin) as [body Hb]. congruence.
    + congruence.
    + destruct (Hd req w1) as (resp & w2 & Hdo' & _). congruence.
    + destruct (Hd req w1) as (resp' & w2 & Hdo' & Hs'). congruence.
Qed.

Lemma decoded_map_EDo (reqs : list http_Request) : decoded (map EDo reqs) = [].
Proof. induction reqs as [|r reqs IH]; [reflexivity | exact IH]. Qed.

Lemma decoded_app (t1 t2 : list Effect) :
  decoded (t1 ++ t2) = decoded t1 ++ decoded t2.
Proof.
  induction t1 as [|[v|r|b] t1 IH]; cbn; [reflexivity| | |]; now rewrite IH.
Qed.

Lemma sendEventsLoop_never_decodes (c : Client) (indexName : string)
  (events : list Event) (w : World) :
  decoded (log (sendEventsLoop c indexName (collectorURL c) events w)) = [].
Proof.
  revert w. induction events as [|e rest IH]; intros w; [reflexivity|].
  cbn [sendEventsLoop]. unfold bind. cbn [log]. rewrite decoded_app.
  pose proof (sendEvent_iteration c indexName e w) as Hit.
  remember (sendEvent c indexName (collectorURL c) e w) as r eqn:Hr.
  destruct Hit as [req resp w' _ _ _ | cause err reqs w' _]; cbn [value final log ret].
  - cbn [decoded app]. apply IH.
  - cbn [decoded]. now rewrite decoded_map_EDo.
Qed.

(** [SendEvents] never runs the JSON decoder, whatever the server
    answers; it sends only what it has serialized, so the requests never
    outnumber the serializations, and it serializes at most one event
    more than it sends and never more than the list holds. *)
Theorem SendEvents_effects_bounded (c : Client) (indexName : string)
  (events : list Event) (w : World) :
  decoded (log (SendEvents c indexName events w)) = [] /\
  (length (requests (log (SendEvents c indexName events w)))
   <= length (marshalled (log (SendEvents c indexName events w))))%nat /\
  (length (marshalled (log (SendEvents c indexName events w)))
   <= S (length (requests (log (SendEvents c indexName events w)))))%nat /\
  (length (marshalled (log (SendEvents c indexName events w)))
   <= length events)%nat.
Proof.
  unfold SendEvents.
  destruct (String.eqb_spec (Token c) "") as [Heq|Hne]; [cbn; repeat split; lia|].
  cbv zeta. split; [apply sendEventsLoop_never_decodes|].
  destruct (sendEventsLoop_spec c indexName events w)
    as [(_ & Hdel & Hm)
       | (pre & e & post & w1 & reqs & extra & cause & He & _ & Hdel & Hab & Hreq & Hm)].
  - apply delivered_length in Hdel. apply Forall2_length in Hm.
    change (collectorURL c) with
      (strings_TrimRight (BaseURL c) "/" +:+ "/services/collector/event") in *.
    lia.
  - apply delivered_length in Hdel. apply Forall2_length in Hm.
    change (collectorURL c) with
      (strings_TrimRight (BaseURL c) "/" +:+ "/services/collector/event") in *.
    rewrite Hreq, length_app. rewrite length_app in Hm. cbn [length] in Hm.
    assert (Hx : (length extra <= 1)%nat) by (destruct Hab; cbn; lia).
    assert (Hev : length events = (length pre + S (length post))%nat)
      by (rewrite He, length_app; reflexivity).
    lia.
Qed.

(** ** Authentication *)

(** [setAuthHeader] changes the Authorization header and nothing else:
    method, URL, body and every other header stay; a stale Authorization
    header is replaced, not kept beside the new one; and running it
    again changes nothing more. *)
Theorem setAuthHeader_touches_Authorization_only (c : Client)
  (req req' : http_Request) :
  setAuthHeader c req = Ok req' ->
  Method req' = Method req /\ URL req' = URL req /\ Body req' = Body req /\
  (forall k : string, k <> "Authorization" -> Header req' !! k = Header req !! k) /\
  (exists v, Header req' !! "Authorization" = Some [v]) /\
  (forall stale, setAuthHeader c (req_Header_Set req "Authorization" stale) = Ok req') /\
  setAuthHeader c req' = Ok req'.
Proof.
  unfold setAuthHeader.
  destruct (negb (Token c =? "")%string);
    [|destruct (negb (Username c =? "")%string && negb (Password c =? "")%string)];
    intros [= <-]; unfold SetBasicAuth, req_Header_Set, Header_Set;
    cbn [Method URL Body Header];
    repeat split;
    try (intros k Hk; now rewrite lookup_insert_ne by congruence);
    try (eexists; now rewrite lookup_insert_eq);
    try (intros stale); now rewrite insert_insert_eq.
Qed.

(** With a user name and a password and no token, the server reads from
    the request the very credentials of the client, as long as the user
    name holds no colon. *)
Theorem setAuthHeader_basic_round_trip (c : Client) (req : http_Request) :
  Token c = "" -> Username c <> "" -> Password c <> "" ->
  occurs ":" (Username c) = false ->
  exists req', setAuthHeader c req = Ok req' /\
               Request_BasicAuth req' = Some (Username c, Password c).
Proof.
  intros Ht Hu Hp Hc. eexists. split; [now apply setAuthHeader_basic|].
  rewrite BasicAuth_SetBasicAuth.
  change (Username c +:+ ":" +:+ Password c)
    with (Username c +:+ String ":" (Password c)).
  now apply Cut_first.
Qed.

(** A colon in the user name is not protected: the credentials are cut
    at the first colon, so the server reads a shorter user name and a
    password that starts with the rest of it. With a token, it reads no
    basic credentials at all. *)
Theorem setAuthHeader_basic_colon (c : Client) (req : http_Request)
  (u1 u2 : string) :
  Username c = u1 +:+ ":" +:+ u2 -> occurs ":" u1 = false ->
  (Token c = "" -> Password c <> "" ->
   exists req', setAuthHeader c req = Ok req' /\
                Request_BasicAuth req' = Some (u1, u2 +:+ ":" +:+ Password c))
  /\
  (Token c <> "" ->
   exists req', setAuthHeader c req = Ok req' /\ Request_BasicAuth req' = None).
Proof.
  intros Hu Hc. split.
  - intros Ht Hp. eexists. split.
    + apply setAuthHeader_basic; [exact Ht | | exact Hp].
      rewrite Hu. now destruct u1.
    + rewrite BasicAuth_SetBasicAuth, Hu, string_app_assoc.
      change (u1 +:+ ":" +:+ u2 +:+ ":" +:+ Password c)
        with (u1 +:+ String ":" (u2 +:+ ":" +:+ Password c)).
      now apply Cut_first.
  - intros Ht. eexists. split; [now apply setAuthHeader_token|].
    apply BasicAuth_Bearer.
Qed.


(** ** The commands *)

(** What [main] prints is decided by the three environment variables
    alone: the token method whenever SPLUNK_TOKEN is not empty, the
    user name and password method when it is empty and both others are
    not, the creation error otherwise. A variable that is not set counts
    as empty. Both versions of [main] print the same, although only one
    of their [NewClient] keeps the password. *)
Theorem main_reports_method (env : gmap string string) :
  let token := os_Getenv env "SPLUNK_TOKEN" in
  let username := os_Getenv env "SPLUNK_USERNAME" in
  let password := os_Getenv env "SPLUNK_PASSWORD" in
  RootCmd.main env = Cmd.main env /\
  (token <> "" ->
   Cmd.main env = ["Splunk client created successfully!";
                   "Authentication method: Token"]) /\
  (token = "" -> username <> "" -> password <> "" ->
   Cmd.main env = ["Splunk client created successfully!";
                   "Authentication method: Username/Password"]) /\
  (token = "" -> username = "" \/ password = "" ->
   Cmd.main env =
     ["Error creating Splunk client: either a token or a username and password must be provided"]) /\
  Cmd.main (delete "SPLUNK_TOKEN" env) = Cmd.main (<["SPLUNK_TOKEN" := ""]> env).
Proof.
  cbn zeta. unfold RootCmd.main, Cmd.main, Main.NewClient, NewClient.
  split; [|split; [|split; [|split]]].
  - destruct (_ && _); reflexivity.
  - intros Ht. apply String.eqb_neq in Ht.
    rewrite Ht. cbn. rewrite Ht. reflexivity.
  - intros Ht Hu Hp. rewrite Ht.
    apply String.eqb_neq in Hu, Hp. rewrite Hu, Hp. reflexivity.
  - intros Ht [Hu|Hp]; rewrite Ht.
    + rewrite Hu. reflexivity.
    + rewrite Hp. cbn. rewrite orb_true_r. reflexivity.
  - unfold os_Getenv.
    rewrite lookup_delete_eq, lookup_insert_eq.
    rewrite !lookup_delete_ne, !lookup_insert_ne by discriminate. reflexivity.
Qed.

(** What [ExampleSendEvents] does, by the environment. Without usable
    credentials it prints the creation error; with a user name and a
    password but no token it prints that HEC requires a token; in both
    cases nothing is serialized or sent. With a token it serializes the
    one event, stamped 1672531200, for the index test_index, makes at
    most one request, to the collector of localhost:8089 with the token
    in the Splunk scheme, and prints exactly one line, which announces
    success exactly when [SendEvents] returned [nil]. *)
Theorem ExampleSendEvents_outcomes (env : gmap string string) (w : World) :
  let token := os_Getenv env "SPLUNK_TOKEN" in
  let username := os_Getenv env "SPLUNK_USERNAME" in
  let password := os_Getenv env "SPLUNK_PASSWORD" in
  let run := Examples.ExampleSendEvents env w in
  (token = "" -> username = "" \/ password = "" ->
   value run =
     ["Error creating Splunk client: either a token or a username and password must be provided"] /\
   log run = [] /\ final run = w) /\
  (token = "" -> username <> "" -> password <> "" ->
   value run = ["Error sending event: HEC requires a token for authentication"] /\
   log run = [] /\ final run = w) /\
  (token <> "" ->
   marshalled (log run)
     = [any_map (payload "test_index" (Examples.hello 1672531200))] /\
   (length (requests (log run)) <= 1)%nat /\
   Forall (fun req =>
             Method req = "POST" /\
             URL req = "https://localhost:8089/services/collector/event" /\
             Header_Get (Header req) "Authorization" = "Splunk " +:+ token)
          (requests (log run)) /\
   (exists line, value run = [line]) /\
   (value run = ["Event sent successfully!"] <->
    exists req resp,
      requests (log run) = [req] /\
      http_Client_Do (http_Client_new (30 * time_Second)) req w
        = (Ok resp, final run) /\
      StatusCode resp = 200)).
Proof.
  cbn zeta. unfold Examples.ExampleSendEvents, NewClient.
  split; [|split].
  - intros Ht Hup. rewrite Ht.
    destruct Hup as [-> | ->]; cbn; rewrite ?orb_true_r; repeat split.
  - intros Ht Hu Hp. rewrite Ht.
    destruct (String.eqb_spec (os_Getenv env "SPLUNK_USERNAME") ""); [contradiction|].
    destruct (String.eqb_spec (os_Getenv env "SPLUNK_PASSWORD") ""); [contradiction|].
    cbn. repeat split.
  - intros Ht.
    destruct (String.eqb_spec (os_Getenv env "SPLUNK_TOKEN") "") as [|_]; [contradiction|].
    cbn [andb].
    change (time_Parse_RFC3339_Unix "2023-01-01T00:00:00Z") with (Ok 1672531200).
    cbv iota.
    set (c := {| BaseURL := "https://localhost:8089";
                 Username := os_Getenv env "SPLUNK_USERNAME";
                 Password := "";
                 Token := os_Getenv env "SPLUNK_TOKEN";
                 HTTPClient := http_Client_new (30 * time_Second) |}).
    unfold SendEvents. cbn [Token c].
    destruct (String.eqb_spec (os_Getenv env "SPLUNK_TOKEN") "") as [|_]; [contradiction|].
    cbv zeta. cbn [BaseURL c].
    change (strings_TrimRight "https://localhost:8089" "/" +:+ "/services/collector/event")
      with (collectorURL c).
    cbn [sendEventsLoop]. unfold bind.
    pose proof (sendEvent_iteration c "test_index" (Examples.hello 1672531200) w) as Hit.
    remember (sendEvent c "test_index" (collectorURL c) (Examples.hello 1672531200) w)
      as r eqn:Hr.
    destruct Hit as [req resp w' Hc Hd Hs | cause err reqs w' Hab];
      cbn [value final log ret app requests marshalled length].
    + destruct Hc as (Hm & Hu & Ha & _).
      split; [|split; [|split; [|split]]].
      * reflexivity.
      * cbn. lia.
      * apply List.Forall_cons; [|apply List.Forall_nil]. repeat split; assumption.
      * eauto.
      * split; [|reflexivity].
        intros _. exists req, resp. repeat split; assumption.
    + assert (Hreqs : marshalled (map EDo reqs ++ []) = [] /\
                      requests (map EDo reqs ++ []) = reqs)
        by (rewrite app_nil_r, marshalled_map_EDo, requests_map_EDo; auto).
      destruct Hreqs as [Hmr Hrq].
      split; [|split; [|split; [|split]]].
      * inversion Hab; subst; cbn [marshalled app]; rewrite ?Hmr; reflexivity.
      * inversion Hab; subst; cbn [requests app]; rewrite ?Hrq; cbn; lia.
      * inversion Hab as [ | | req m w2 Hc | req resp w2 Hc]; subst;
          cbn [requests app]; rewrite ?Hrq;
          try apply List.Forall_nil;
          (apply List.Forall_cons; [|apply List.Forall_nil]);
          destruct Hc as (Hm & Hu & Ha & _); repeat split; assumption.
      * eauto.
      * split.
        -- intros H. discriminate H.
        -- intros (req & resp & Hq & Hd & Hs). exfalso.
           inversion Hab as [ | | rq m w2 Hc Hd' | rq rs w2 Hc Hd' Hs']; subst;
             cbn [requests app] in Hq; rewrite ?Hrq in Hq;
             try discriminate; injection Hq as ->;
             subst c; cbn [HTTPClient] in *; congruence.
Qed.

End Coverage.

(** * The model at work on the scripted runtime *)

(** RFC 4648 test vectors for the base64 encoder. *)
Example base64_vectors :
  base64_EncodeToString "" = "" /\
  base64_EncodeToString "f" = "Zg==" /\
  base64_EncodeToString "fo" = "Zm8=" /\
  base64_EncodeToString "foo" = "Zm9v" /\
  base64_EncodeToString "foobar" = "Zm9vYmFy" /\
  base64_EncodeToString "user:pass" = "dXNlcjpwYXNz".
Proof. repeat split. Qed.

(** Two events, both accepted: two POSTs, in order (TestSendEvents_Success). *)
Example SendEvents_two_accepted :
  let run := SendEvents (token_client accepting) "main" [ev_foo; ev_baz] 0%nat in
  value run = None /\
  final run = 2%nat /\
  map (fun r => Header_Get (Header r) "Authorization") (requests (log run)) =
    ["Splunk test-token"; "Splunk test-token"] /\
  map URL (requests (log run)) =
    ["http://localhost:8089/services/collector/event";
     "http://localhost:8089/services/collector/event"] /\
  marshalled (log run) =
    [any_map (payload "main" ev_foo); any_map (payload "main" ev_baz)].
Proof. vm_compute. repeat split. Qed.

(** Three events, the second rejected: the first stays delivered, the
    error is that of the second, the third is never touched. *)
Example SendEvents_second_rejected :
  let run := SendEvents (token_client rejecting_second) "main"
               [ev_foo; ev_baz; ev_foo] 0%nat in
  value run = Some "failed to send event: 400 Bad Request - bad request" /\
  final run = 2%nat /\
  length (requests (log run)) = 2%nat /\
  length (marshalled (log run)) = 2%nat.
Proof. vm_compute. repeat split. Qed.

(** An event that cannot be serialized stops the call before its POST
    (TestSendEvents_MarshalError). *)
Example SendEvents_unserializable :
  let run := SendEvents (token_client accepting) "main"
               [ev_foo; ev_chan; ev_foo] 0%nat in
  value run = Some "failed to marshal event: json: unsupported type: chan int" /\
  final run = 1%nat /\
  length (requests (log run)) = 1%nat /\
  length (marshalled (log run)) = 2%nat.
Proof. vm_compute. repeat split. Qed.

(** A base URL that does not parse: the event is serialized, no request
    can be created, nothing is sent (TestSendEvents_RequestError). *)
Example SendEvents_malformed_url :
  let run := SendEvents malformed_client "main" [ev_foo] 0%nat in
  value run = Some ("failed to create request: " +:+ malformed_error) /\
  final run = 0%nat /\
  requests (log run) = [] /\
  marshalled (log run) = [any_map (payload "main" ev_foo)].
Proof. vm_compute. repeat split. Qed.

(** The search of TestSearch_WithOptions. *)
Example Search_with_options :
  let run := Pkg.Search (basic_client accepting) "foo"
               ["exec_mode=blocking"; "earliest_time=1"; "latest_time=2"] 0%nat in
  map Body (requests (log run)) =
    ["search=foo&exec_mode=blocking&output_mode=json&earliest_time=1&latest_time=2"] /\
  map (fun r => Header_Get (Header r) "Authorization") (requests (log run)) =
    ["Basic dXNlcjpwYXNz"] /\
  decoded (log run) = ["{}"].
Proof. vm_compute. repeat split. Qed.

(** * Witnesses and counterexamples *)

(** C1, at three events of which the second is rejected. *)
Lemma C1_witness :
  Token (token_client rejecting_second) <> "" /\
  sequential_partial (fun _ => True) (token_client rejecting_second) "main"
    [ev_foo; ev_baz; ev_foo] 0%nat
    (SendEvents (token_client rejecting_second) "main"
       [ev_foo; ev_baz; ev_foo] 0%nat).
Proof.
  split; [discriminate|].
  apply (C1_SendEvents_sequential_partial (token_client rejecting_second)
           "main" [ev_foo; ev_baz; ev_foo] 0%nat).
  discriminate.
Defined.

(** C1 as the specification words it, with the three causes it lists,
    fails for a client whose base URL does not parse: the call returns an
    error although the event was serialized and no exchange was tried. *)
Lemma C1_counterexample :
  Token malformed_client <> "" /\
  ~ sequential_partial listed_cause malformed_client "main" [ev_foo] 0%nat
      (SendEvents malformed_client "main" [ev_foo] 0%nat).
Proof.
  split; [discriminate|].
  assert (Hval : value (SendEvents malformed_client "main" [ev_foo] 0%nat) =
                 Some ("failed to create request: " +:+ malformed_error))
    by (vm_compute; reflexivity).
  intros [(Hv & _) | (pre & e & post & w1 & reqs & extra & cause & _ & Hc & _ & Hab & _)].
  - rewrite Hval in Hv. discriminate.
  - rewrite Hval in Hab.
    destruct Hc as [-> | [-> | ->]]; inversion Hab as [? ? ? ? H | | ? ? ? ? ? H | ? ? ? ? ? ? H];
      cbv in H; discriminate H.
Qed.

(** C6, at a client without token and one event. *)
Lemma C6_witness :
  Token anonymous_client = "" /\
  value (SendEvents anonymous_client "main" [ev_foo] 0%nat) =
    Some "HEC requires a token for authentication" /\
  log (SendEvents anonymous_client "main" [ev_foo] 0%nat) = [] /\
  requests (log (SendEvents anonymous_client "main" [ev_foo] 0%nat)) = [] /\
  marshalled (log (SendEvents anonymous_client "main" [ev_foo] 0%nat)) = [] /\
  final (SendEvents anonymous_client "main" [ev_foo] 0%nat) = 0%nat.
Proof.
  split; [reflexivity|].
  apply (C6_SendEvents_requires_token anonymous_client "main" [ev_foo] 0%nat).
  reflexivity.
Defined.

(** C7 as the specification words it fails twice: an earliest_time
    supplied with an empty value is left out of the body, and of two
    exec_mode options only the last one is in the body. *)
Lemma C7_counterexample :
  ~ overrides_appear "q" ["earliest_time="] /\
  ~ overrides_appear "q" ["exec_mode=a"; "exec_mode=b"].
Proof.
  split; intros H.
  - specialize (H "earliest_time" "" (or_intror (or_introl eq_refl))
                  (or_introl eq_refl)).
    vm_compute in H. discriminate H.
  - specialize (H "exec_mode" "a" (or_introl eq_refl) (or_introl eq_refl)).
    vm_compute in H. discriminate H.
Qed.

(** C8, at the search of TestSearch_NonOKStatus. *)
Lemma C8_witness :
  value (Pkg.Search (basic_client rejecting) "foo" [] 0%nat) =
    Err "search request failed: 400 Bad Request" /\
  decoded (log (Pkg.Search (basic_client rejecting) "foo" [] 0%nat)) = [].
Proof.
  apply (proj1 (proj2 (C8_Search_non200_not_parsed (basic_client rejecting)
                         "foo" [] 0%nat 1%nat foo_request
                         (mkResponse 400 "400 Bad Request" "bad request")
                         eq_refl ltac:(discriminate)))).
  vm_compute. reflexivity.
Defined.

(** C9, at a client that has a token. *)
Lemma C9_witness :
  Token (token_client accepting) <> "" /\
  (forall indexName events w req,
      In req (requests (log (SendEvents (token_client accepting) indexName events w))) ->
      Header_Get (Header req) "Authorization" = "Splunk test-token") /\
  (forall q options w req,
      In req (requests (log (Pkg.Search (token_client accepting) q options w))) ->
      Header_Get (Header req) "Authorization" = "Bearer test-token").
Proof.
  split; [discriminate|].
  pose proof (C9_search_and_ingestion_schemes_differ (token_client accepting)
                ltac:(discriminate)) as (Hs & _ & He & _).
  split; [exact He | exact Hs].
Defined.

(** A search answered with 200 and the empty object, after
    TestSearch_Success. *)
Lemma Search_200_returns_decoded_witness :
  value (Pkg.Search (basic_client accepting) "foo" [] 0%nat) = Ok ∅ /\
  decoded (log (Pkg.Search (basic_client accepting) "foo" [] 0%nat)) = ["{}"] /\
  final (Pkg.Search (basic_client accepting) "foo" [] 0%nat) = 1%nat.
Proof.
  apply (proj1 (Search_200_returns_decoded (basic_client accepting) "foo" []
                  0%nat 1%nat foo_request (mkResponse 200 "200 OK" "{}")
                  eq_refl eq_refl)).
  vm_compute. reflexivity.
Defined.

(** A search whose server cannot be reached. *)
Lemma Search_transport_error_unwrapped_witness :
  value (Pkg.Search (basic_client unreachable) "foo" [] 0%nat)
    = Err "connection refused" /\
  decoded (log (Pkg.Search (basic_client unreachable) "foo" [] 0%nat)) = [] /\
  final (Pkg.Search (basic_client unreachable) "foo" [] 0%nat) = 1%nat.
Proof.
  apply (proj1 (Search_transport_error_unwrapped (basic_client unreachable)
                  "foo" [] 0%nat 1%nat foo_request "connection refused" eq_refl)).
  vm_compute. reflexivity.
Defined.

(** An output_mode option between two recognized ones changes nothing. *)
Lemma Search_ignores_other_options_witness :
  Pkg.reqBody "foo" (["exec_mode=blocking"] ++ "output_mode=xml" :: ["latest_time=now"])
    = Pkg.reqBody "foo" (["exec_mode=blocking"] ++ ["latest_time=now"]) /\
  Pkg.Search (basic_client accepting) "foo"
    (["exec_mode=blocking"] ++ "output_mode=xml" :: ["latest_time=now"]) 0%nat
    = Pkg.Search (basic_client accepting) "foo"
        (["exec_mode=blocking"] ++ ["latest_time=now"]) 0%nat.
Proof.
  apply (Search_ignores_other_options (basic_client accepting) "foo"
           ["exec_mode=blocking"] ["latest_time=now"] "output_mode=xml" 0%nat).
  intros key [-> | [-> | ->]]; vm_compute; discriminate.
Defined.

(** Options on different keys, in both orders. *)
Lemma Search_options_commute_witness :
  option_key "exec_mode=blocking" <> option_key "earliest_time=-1h" /\
  Pkg.reqBody "foo" ([] ++ ["exec_mode=blocking"; "earliest_time=-1h"])
    = Pkg.reqBody "foo" ([] ++ ["earliest_time=-1h"; "exec_mode=blocking"]).
Proof.
  split; [vm_compute; discriminate|].
  apply (Search_options_commute (basic_client accepting) "foo" [] []
           "exec_mode=blocking" "earliest_time=-1h" 0%nat).
  vm_compute. discriminate.
Defined.

(** The body of a search with a time bound, read back field by field. *)
Lemma Search_body_reads_back_witness :
  form_fields (Pkg.reqBody "foo" ["earliest_time=-1h"]) =
    [("search", "foo"); ("exec_mode", "normal"); ("output_mode", "json");
     ("earliest_time", "-1h")].
Proof.
  exact (Search_body_reads_back "foo" ["earliest_time=-1h"]
           eq_refl eq_refl eq_refl eq_refl).
Defined.

(** Two events, both accepted: [SendEvents] returns [nil]. *)
Lemma SendEvents_nil_means_all_delivered_witness :
  value (SendEvents (token_client accepting) "main" [ev_foo; ev_baz] 0%nat) = None /\
  length (requests (log (SendEvents (token_client accepting) "main"
                           [ev_foo; ev_baz] 0%nat))) = 2%nat.
Proof.
  split; [vm_compute; reflexivity|].
  apply (SendEvents_nil_means_all_delivered (token_client accepting) "main"
           [ev_foo; ev_baz] 0%nat).
  vm_compute. reflexivity.
Defined.

(** Two events that serialize, sent to a server that accepts all. *)
Lemma SendEvents_all_accepted_witness :
  value (SendEvents (token_client accepting) "main" [ev_foo; ev_baz] 0%nat) = None /\
  length (requests (log (SendEvents (token_client accepting) "main"
                           [ev_foo; ev_baz] 0%nat))) = 2%nat /\
  Forall2 (carries (token_client accepting) "main") [ev_foo; ev_baz]
    (requests (log (SendEvents (token_client accepting) "main"
                      [ev_foo; ev_baz] 0%nat))).
Proof.
  apply (SendEvents_all_accepted (token_client accepting) "main"
           [ev_foo; ev_baz] 0%nat).
  - discriminate.
  - reflexivity.
  - intros e [<- | [<- | []]]; eexists; vm_compute; reflexivity.
  - intros req w0. eexists _, _. split; reflexivity.
Defined.

(** The basic credentials of the test client, set on a bare request. *)
Lemma setAuthHeader_touches_Authorization_only_witness :
  setAuthHeader (basic_client accepting) bare_request
    = Ok (req_Header_Set bare_request "Authorization" "Basic dXNlcjpwYXNz") /\
  Body (req_Header_Set bare_request "Authorization" "Basic dXNlcjpwYXNz")
    = Body bare_request.
Proof.
  split; [reflexivity|].
  apply (setAuthHeader_touches_Authorization_only (basic_client accepting)
           bare_request
           (req_Header_Set bare_request "Authorization" "Basic dXNlcjpwYXNz")).
  reflexivity.
Defined.

(** The credentials of the test client read back by the server. *)
Lemma setAuthHeader_basic_round_trip_witness :
  exists req', setAuthHeader (basic_client accepting) bare_request = Ok req' /\
               Request_BasicAuth req' = Some ("user", "pass").
Proof.
  apply (setAuthHeader_basic_round_trip (basic_client accepting) bare_request).
  - reflexivity.
  - discriminate.
  - discriminate.
  - reflexivity.
Defined.

(** A user name with a colon is read back cut at that colon. *)
Lemma setAuthHeader_basic_colon_witness :
  exists req', setAuthHeader colon_client bare_request = Ok req' /\
               Request_BasicAuth req' = Some ("a", "b:pass").
Proof.
  apply (proj1 (setAuthHeader_basic_colon colon_client bare_request "a" "b"
                  eq_refl eq_refl)).
  - reflexivity.
  - discriminate.
Defined.

